(** * mozilla_django_oidc.views: the OIDC relying-party views

    A shallow embedding of [src/mozilla_django_oidc/views.py]: the callback
    view [OIDCAuthenticationCallbackView], the helper [get_next_url] and the
    logout view [OIDCLogoutView], followed by the properties of the
    specification that concern them.

    Python values are modelled by [pyval], the Django session by a finite
    map, the query string by the list of its pairs, and the handlers by a
    small state-and-exception monad over the request, which also records the
    calls made to the collaborators outside the repository
    (django.contrib.auth, the authentication backend).
    The request view [OIDCAuthenticationRequestView] is modelled in the
    module [RequestView]. *)

From Stdlib Require Import ZArith String Ascii List Lia.
From stdpp Require Import base option strings list gmap.

Local Open Scope string_scope.
Local Open Scope list_scope.

(** ** Python values *)

(** The values that the views read from and write to the session: [None],
    strings, and numbers (time stamps; the source has floats, and the only
    arithmetic is one addition, so they are modelled as integers). *)
Inductive pyval : Type :=
  | PNone
  | PStr (s : string)
  | PNum (n : Z).

#[global] Instance pyval_eq_dec : EqDecision pyval.
Proof. solve_decision. Defined.

(** Python truthiness, as tested by [if v:] and [v or w]. *)
Definition truthy (v : pyval) : bool :=
  match v with
  | PNone => false
  | PStr s => negb (String.eqb s "")
  | PNum n => negb (Z.eqb n 0)
  end.

(** [v or w]. *)
Definition py_or (v w : pyval) : pyval := if truthy v then v else w.

(** [v != w]. *)
Definition py_ne (v w : pyval) : bool := negb (bool_decide (v = w)).

(** ** Exceptions and outcomes *)

Inductive Exn : Type :=
  | SuspiciousOperation (msg : string)
  | AssertionError
  | KeyError (key : string)
  | ExternalError (name : string).

Inductive outcome (A : Type) : Type :=
  | Return (a : A)
  | Raise (e : Exn).
Arguments Return {A} a.
Arguments Raise {A} e.

(** ** Requests *)

(** [request.GET], a Django [QueryDict]: the pairs of the query string in
    order; a key may occur several times. *)
Definition QueryDict : Type := list (string * string).

Fixpoint getlist (q : QueryDict) (key : string) : list string :=
  match q with
  | [] => []
  | (k, v) :: q' => if String.eqb k key then v :: getlist q' key else getlist q' key
  end.

(** [q.get(key)]: the last value of [key], or [None]. *)
Definition QueryDict_get (q : QueryDict) (key : string) : pyval :=
  match last (getlist q key) with
  | Some v => PStr v
  | None => PNone
  end.

(** [key in q]. *)
Definition QueryDict_contains (q : QueryDict) (key : string) : bool :=
  match getlist q key with
  | [] => false
  | _ :: _ => true
  end.

(** [q[key]]: the last value of [key]; a missing key raises. *)
Definition QueryDict_getitem (q : QueryDict) (key : string) : outcome string :=
  match last (getlist q key) with
  | Some v => Return v
  | None => Raise (KeyError key)
  end.

(** The principal returned by the authentication backend; the views only
    look at [is_active]. *)
Record User : Type := mkUser {
  username : string;
  is_active : bool
}.

(** The request object: the query, the session, [request.user] ([None] is
    the anonymous user), [request.method], [request.is_secure()] and what
    [request.get_host()] does: it returns the host, or raises DisallowedHost
    when the Host header is not among the allowed hosts of Django. *)
Record Request : Type := mkRequest {
  GET : QueryDict;
  session : gmap string pyval;
  user : option User;
  method : string;
  is_secure : bool;
  get_host : outcome string
}.

Definition with_session (r : Request) (s : gmap string pyval) : Request :=
  mkRequest (GET r) s (user r) (method r) (is_secure r) (get_host r).

(** [request.user.is_authenticated]. *)
Definition is_authenticated (r : Request) : bool :=
  match user r with
  | Some _ => true
  | None => false
  end.

Inductive Response : Type :=
  | HttpResponseRedirect (redirect_to : pyval)
  | HttpResponseNotAllowed (permitted_methods : list string).

Definition status_code (resp : Response) : Z :=
  match resp with
  | HttpResponseRedirect _ => 302
  | HttpResponseNotAllowed _ => 405
  end.

(** ** Settings *)

(** The settings the views consult; [None] is a setting that is not
    configured. *)
Record Settings : Type := mkSettings {
  LOGIN_REDIRECT_URL_FAILURE : option string;
  LOGIN_REDIRECT_URL : option string;
  OIDC_RENEW_ID_TOKEN_EXPIRY_SECONDS : option Z;
  OIDC_REDIRECT_REQUIRE_HTTPS : option bool;
  OIDC_REDIRECT_ALLOWED_HOSTS : option (list string);
  LOGOUT_REDIRECT_URL : option string;
  OIDC_OP_LOGOUT_URL_METHOD : option string
}.

(** Modelled from the spec: [import_from_settings] of
    mozilla_django_oidc/utils.py, which is not among the sources. A setting
    is resolved from the static configuration, else the documented default
    given by the caller is used. *)
Definition import_from_settings {A : Type} (configured : option A) (dflt : A) : A :=
  match configured with
  | Some v => v
  | None => dflt
  end.

(** ** Collaborators outside the repository *)

(** What the views call and do not define: [auth.authenticate] (the
    backend; it may change the request and may raise), [auth.login] and
    [auth.logout] (they may change the request, and are taken to return),
    [time.time], [is_safe_url] (a total function of its three arguments)
    and the function that [import_string] resolves from
    OIDC_OP_LOGOUT_URL_METHOD (it may change the request and may raise). *)
Record Externals : Type := mkExternals {
  settings : Settings;
  authenticate : Request -> pyval -> Request * outcome (option User);
  auth_login : Request -> User -> Request;
  auth_logout : Request -> Request;
  time_time : Z;
  is_safe_url : string -> list string -> bool -> bool;
  import_string : string -> Request -> Request * outcome string
}.

(** The record of a call: the request that was handed over, and the other
    arguments. *)
Inductive Call : Type :=
  | CallAuthenticate (r : Request) (nonce : pyval)
  | CallLogin (r : Request) (u : User)
  | CallLogout (r : Request)
  | CallImported (name : string) (r : Request).

Definition call_request (c : Call) : Request :=
  match c with
  | CallAuthenticate r _ => r
  | CallLogin r _ => r
  | CallLogout r => r
  | CallImported _ r => r
  end.

Definition is_backend_call (c : Call) : bool :=
  match c with
  | CallAuthenticate _ _ => true
  | _ => false
  end.

Definition is_logout_call (c : Call) : bool :=
  match c with
  | CallLogout _ => true
  | _ => false
  end.

Definition is_login_call (c : Call) : bool :=
  match c with
  | CallLogin _ _ => true
  | _ => false
  end.

(** ** The handler monad *)

Record World : Type := mkWorld {
  request : Request;
  calls : list Call
}.

Definition start (r : Request) : World := mkWorld r [].

Definition M (A : Type) : Type := World -> World * outcome A.

#[global] Instance M_ret : MRet M := fun A a w => (w, Return a).

#[global] Instance M_bind : MBind M := fun A B f m w =>
  match m w with
  | (w', Return a) => f a w'
  | (w', Raise e) => (w', Raise e)
  end.

#[global] Instance M_fmap : FMap M := fun A B f m w =>
  match m w with
  | (w', Return a) => (w', Return (f a))
  | (w', Raise e) => (w', Raise e)
  end.

Definition raise {A : Type} (e : Exn) : M A := fun w => (w, Raise e).

Definition the_request : M Request := fun w => (w, Return (request w)).

Definition lift_outcome {A : Type} (o : outcome A) : M A := fun w => (w, o).

(** [assert b]. *)
Definition py_assert (b : bool) : M unit :=
  if b then mret tt else raise AssertionError.

(** [request.session.get(key)]. *)
Definition session_get (key : string) : M pyval := fun w =>
  (w, Return (default PNone (session (request w) !! key))).

(** [key in request.session]. *)
Definition session_contains (key : string) : M bool := fun w =>
  (w, Return (bool_decide (is_Some (session (request w) !! key)))).

(** [request.session[key]]. *)
Definition session_getitem (key : string) : M pyval := fun w =>
  match session (request w) !! key with
  | Some v => (w, Return v)
  | None => (w, Raise (KeyError key))
  end.

(** [request.session[key] = v]. *)
Definition session_setitem (key : string) (v : pyval) : M unit := fun w =>
  (mkWorld (with_session (request w) (<[key := v]> (session (request w)))) (calls w),
   Return tt).

(** [del request.session[key]]. *)
Definition session_delitem (key : string) : M unit := fun w =>
  match session (request w) !! key with
  | Some _ =>
      (mkWorld (with_session (request w) (delete key (session (request w)))) (calls w),
       Return tt)
  | None => (w, Raise (KeyError key))
  end.

(** ** Calls to the collaborators *)

Section Views.

Variable E : Externals.

(** [auth.authenticate(request=request, nonce=nonce)]. *)
Definition auth_authenticate (nonce : pyval) : M (option User) := fun w =>
  let '(r', o) := authenticate E (request w) nonce in
  (mkWorld r' (calls w ++ [CallAuthenticate (request w) nonce]), o).

(** [auth.login(request, user)]. *)
Definition do_login (u : User) : M unit := fun w =>
  (mkWorld (auth_login E (request w) u) (calls w ++ [CallLogin (request w) u]),
   Return tt).

(** [auth.logout(request)]. *)
Definition do_logout : M unit := fun w =>
  (mkWorld (auth_logout E (request w)) (calls w ++ [CallLogout (request w)]),
   Return tt).

(** [import_string(name)(request)]. *)
Definition call_imported (name : string) : M string := fun w =>
  let '(r', o) := import_string E name (request w) in
  (mkWorld r' (calls w ++ [CallImported name (request w)]), o).

(** ** OIDCAuthenticationCallbackView *)

(** The property [failure_url]. *)
Definition failure_url : pyval :=
  PStr (import_from_settings (LOGIN_REDIRECT_URL_FAILURE (settings E)) "/").

(** The property [success_url]: the next url of the session, or the
    setting. *)
Definition success_url : M pyval :=
  next_url ← session_get "oidc_login_next";
  mret (py_or next_url (PStr (import_from_settings (LOGIN_REDIRECT_URL (settings E)) "/"))).

Definition login_failure : M Response :=
  mret (HttpResponseRedirect failure_url).

(** [login_success]; [u] is [self.user]. *)
Definition login_success (u : User) : M Response :=
  do_login u;;
  let expiration_interval :=
    import_from_settings (OIDC_RENEW_ID_TOKEN_EXPIRY_SECONDS (settings E)) (60 * 15)%Z in
  session_setitem "oidc_id_token_expiration" (PNum (time_time E + expiration_interval));;
  url ← success_url;
  mret (HttpResponseRedirect url).

(** Lines 66-69 of [get]: the nonce is read, and deleted when it is truthy. *)
Definition consume_nonce : M pyval :=
  nonce ← session_get "oidc_nonce";
  (if truthy nonce then session_delitem "oidc_nonce" else mret tt);;
  mret nonce.

Definition state_mismatch_msg : string :=
  "Session `oidc_state` does not match the OIDC callback state".

(** Lines 72-79, the branch of [if request.GET.get('error')]. It returns
    nothing: the handler goes on to its last line. *)
Definition error_branch : M (option Response) :=
  r ← the_request;
  (if is_authenticated r then do_logout else mret tt);;
  r' ← the_request;
  py_assert (negb (is_authenticated r'));;
  mret None.

(** Lines 81-96, the branch of [elif 'code' in request.GET and 'state' in
    request.GET]. [Some] is a [return] inside the branch. *)
Definition code_branch (nonce : pyval) : M (option Response) :=
  has_state ← session_contains "oidc_state";
  if negb has_state then Some <$> login_failure
  else
    r ← the_request;
    callback_state ← lift_outcome (QueryDict_getitem (GET r) "state");
    stored_state ← session_getitem "oidc_state";
    if py_ne (PStr callback_state) stored_state
    then raise (SuspiciousOperation state_mismatch_msg)
    else
      u ← auth_authenticate nonce;
      match u with
      | Some u' => if is_active u' then Some <$> login_success u' else mret None
      | None => mret None
      end.

(** Lines 71-97 of [get]: the [if]/[elif] and the last line. *)
Definition branches (nonce : pyval) : M Response :=
  r ← the_request;
  returned ←
    (if truthy (QueryDict_get (GET r) "error") then error_branch
     else if QueryDict_contains (GET r) "code" && QueryDict_contains (GET r) "state"
          then code_branch nonce
          else mret None);
  match returned with
  | Some response => mret response
  | None => login_failure
  end.

(** [OIDCAuthenticationCallbackView.get]. *)
Definition get : M Response :=
  nonce ← consume_nonce;
  branches nonce.

(** ** get_next_url *)

Definition get_next_url (redirect_field_name : string) : M pyval :=
  r ← the_request;
  let next_url := QueryDict_get (GET r) redirect_field_name in
  if truthy next_url then
    let require_https :=
      import_from_settings (OIDC_REDIRECT_REQUIRE_HTTPS (settings E)) (is_secure r) in
    let hosts := import_from_settings (OIDC_REDIRECT_ALLOWED_HOSTS (settings E)) [] in
    host ← lift_outcome (get_host r);
    let hosts := hosts ++ [host] in
    let is_safe :=
      match next_url with
      | PStr url => is_safe_url E url hosts require_https
      | _ => false
      end in
    if is_safe then mret next_url else mret PNone
  else mret PNone.

(** ** OIDCLogoutView *)

(** The property [redirect_url]. *)
Definition redirect_url : string :=
  import_from_settings (LOGOUT_REDIRECT_URL (settings E)) "/".

(** [OIDCLogoutView.post]. *)
Definition post : M Response :=
  let logout_url := redirect_url in
  r ← the_request;
  logout_url ←
    (if is_authenticated r then
       let logout_from_op :=
         import_from_settings (OIDC_OP_LOGOUT_URL_METHOD (settings E)) "" in
       logout_url ←
         (if negb (String.eqb logout_from_op "")
          then call_imported logout_from_op
          else mret logout_url);
       do_logout;;
       mret logout_url
     else mret logout_url);
  mret (HttpResponseRedirect (PStr logout_url)).

End Views.

(** ** Dispatch of a request to a view class *)

Definition lower_ascii (c : ascii) : ascii :=
  let n := nat_of_ascii c in
  if (65 <=? n)%nat && (n <=? 90)%nat then ascii_of_nat (n + 32) else c.

Definition upper_ascii (c : ascii) : ascii :=
  let n := nat_of_ascii c in
  if (97 <=? n)%nat && (n <=? 122)%nat then ascii_of_nat (n - 32) else c.

Fixpoint lower (s : string) : string :=
  match s with
  | EmptyString => EmptyString
  | String c s' => String (lower_ascii c) (lower s')
  end.

Fixpoint upper (s : string) : string :=
  match s with
  | EmptyString => EmptyString
  | String c s' => String (upper_ascii c) (upper s')
  end.

(** A class-based view: its [http_method_names] and the handler methods
    that the class defines, by name. *)
Record ViewClass : Type := mkView {
  http_method_names : list string;
  handlers : list (string * M Response)
}.

(** [getattr(self, name, None)] over the handler methods. *)
Fixpoint getattr (hs : list (string * M Response)) (name : string) : option (M Response) :=
  match hs with
  | [] => None
  | (n, h) :: hs' => if String.eqb n name then Some h else getattr hs' name
  end.

(** [View._allowed_methods]:
    [[m.upper() for m in self.http_method_names if hasattr(self, m)]]. *)
Definition allowed_methods (v : ViewClass) : list string :=
  map upper
    (filter (fun m => is_Some (getattr (handlers v) m)) (http_method_names v)).

Definition http_method_not_allowed (v : ViewClass) : M Response :=
  mret (HttpResponseNotAllowed (allowed_methods v)).

(** [View.dispatch] of django.views.generic, which both view classes
    inherit: the handler is the method named after the lower-cased verb when
    the verb is in [http_method_names] and the class has such a method, and
    [http_method_not_allowed] otherwise. *)
Definition dispatch (v : ViewClass) : M Response :=
  r ← the_request;
  let name := lower (method r) in
  if bool_decide (name ∈ http_method_names v)
  then default (http_method_not_allowed v) (getattr (handlers v) name)
  else http_method_not_allowed v.

Definition OIDCAuthenticationCallbackView (E : Externals) : ViewClass :=
  mkView ["get"] [("get", get E)].

Definition OIDCLogoutView (E : Externals) : ViewClass :=
  mkView ["get"; "post"] [("post", post E)].

(** ** Pure readings of the handlers' results *)

(** The request after lines 66-69. *)
Definition nonce_of (r : Request) : pyval := default PNone (session r !! "oidc_nonce").

Definition after_nonce (r : Request) : Request :=
  if truthy (nonce_of r)
  then with_session r (delete "oidc_nonce" (session r))
  else r.

(** The value of [success_url] on a request. *)
Definition success_url_of (E : Externals) (r : Request) : pyval :=
  py_or (default PNone (session r !! "oidc_login_next"))
        (PStr (import_from_settings (LOGIN_REDIRECT_URL (settings E)) "/")).

(** The request that [login_success] leaves, from the request [r] that the
    backend left. *)
Definition logged_in (E : Externals) (r : Request) (u : User) : Request :=
  let r' := auth_login E r u in
  with_session r'
    (<["oidc_id_token_expiration" :=
         PNum (time_time E +
               import_from_settings (OIDC_RENEW_ID_TOKEN_EXPIRY_SECONDS (settings E)) 900%Z)]>
       (session r')).

(** What [get_next_url] is specified to return, where it returns. *)
Definition safe_next_url (E : Externals) (r : Request) (name : string) : pyval :=
  match QueryDict_get (GET r) name with
  | PStr url =>
      if String.eqb url "" then PNone
      else match get_host r with
           | Return host =>
               if is_safe_url E url
                    (import_from_settings (OIDC_REDIRECT_ALLOWED_HOSTS (settings E)) []
                     ++ [host])
                    (import_from_settings (OIDC_REDIRECT_REQUIRE_HTTPS (settings E))
                       (is_secure r))
               then PStr url
               else PNone
           | Raise _ => PNone
           end
  | _ => PNone
  end.

(** What [get_next_url] returns or raises: the host is asked for when the
    parameter is truthy only, and its exception is let through. *)
Definition next_url_outcome (E : Externals) (r : Request) (name : string) : outcome pyval :=
  if truthy (QueryDict_get (GET r) name)
  then match get_host r with
       | Return _ => Return (safe_next_url E r name)
       | Raise e => Raise e
       end
  else Return PNone.

(** ** Contracts of the collaborators *)

(** [auth.logout] leaves the anonymous user in [request.user]; line 79 of
    the callback asserts it. *)
Definition logout_unauthenticates (E : Externals) : Prop :=
  forall r, user (auth_logout E r) = None.

(** The backend and [auth.login] leave the session key [key] as it is. *)
Definition externals_keep (E : Externals) (key : string) : Prop :=
  (forall r n, session (authenticate E r n).1 !! key = session r !! key) /\
  (forall r u, session (auth_login E r u) !! key = session r !! key).

(** ** A concrete environment *)

Module Demo.

Definition alice : User := mkUser "alice" true.

Definition defaults : Settings := mkSettings None None None None None None None.

(** The url starts with one slash: a stand-in for Django's [is_safe_url]
    that accepts host-relative paths only. *)
Definition relative_only (url : string) (hosts : list string) (https : bool) : bool :=
  match url with
  | String "/" (String "/" _) => false
  | String "/" _ => true
  | _ => false
  end.

Definition login_user (r : Request) (u : User) : Request :=
  mkRequest (GET r) (session r) (Some u) (method r) (is_secure r) (get_host r).

(** Django's [auth.logout]: the session is flushed and the user becomes
    anonymous. *)
Definition flush_user (r : Request) : Request :=
  mkRequest (GET r) ∅ None (method r) (is_secure r) (get_host r).

Definition op_logout (name : string) (r : Request) : Request * outcome string :=
  (r, Return "https://op.example/logout").

(** A backend that accepts the code "good" when it is handed the nonce
    "n0nce". *)
Definition strict_backend (r : Request) (nonce : pyval) : Request * outcome (option User) :=
  (r, Return (if bool_decide (QueryDict_get (GET r) "code" = PStr "good")
                 && bool_decide (nonce = PStr "n0nce")
              then Some alice else None)).

(** A backend that accepts the code "good" and verifies no nonce (the
    configuration in which OIDC_USE_NONCE is off). *)
Definition lenient_backend (r : Request) (nonce : pyval) : Request * outcome (option User) :=
  (r, Return (if bool_decide (QueryDict_get (GET r) "code" = PStr "good")
              then Some alice else None)).

Definition strict : Externals :=
  mkExternals defaults strict_backend login_user flush_user 1700000000
              relative_only op_logout.

Definition lenient : Externals :=
  mkExternals defaults lenient_backend login_user flush_user 1700000000
              relative_only op_logout.

Definition callback (q : QueryDict) (s : gmap string pyval) (u : option User) : Request :=
  mkRequest q s u "GET" true (Return "rp.example").

End Demo.

(** The same request arriving a second time: the query of [r], against the
    session (and the user bound to it) that an earlier invocation left in
    [w]. *)
Definition resubmit (r : Request) (w : World) : Request :=
  mkRequest (GET r) (session (request w)) (user (request w))
            (method r) (is_secure r) (get_host r).

(** What the callback does once the stored state has been verified, on the
    request [r1] and the nonce [nonce] it hands to the backend. *)
Definition backend_path (E : Externals) (r1 : Request) (nonce : pyval)
  : World * outcome Response :=
  match authenticate E r1 nonce with
  | (r2, Return (Some u)) =>
      if is_active u
      then (mkWorld (logged_in E r2 u) [CallAuthenticate r1 nonce; CallLogin r2 u],
            Return (HttpResponseRedirect (success_url_of E (logged_in E r2 u))))
      else (mkWorld r2 [CallAuthenticate r1 nonce],
            Return (HttpResponseRedirect (failure_url E)))
  | (r2, Return None) =>
      (mkWorld r2 [CallAuthenticate r1 nonce],
       Return (HttpResponseRedirect (failure_url E)))
  | (r2, Raise e) => (mkWorld r2 [CallAuthenticate r1 nonce], Raise e)
  end.

(** ** OIDCAuthenticationRequestView *)

(** The settings that the request view consults; [None] is a setting that
    is not configured. OIDC_AUTH_REQUEST_EXTRA_PARAMS is a dict of strings,
    modelled by the list of its items in order. *)
Record RequestSettings : Type := mkRequestSettings {
  OIDC_OP_AUTHORIZATION_ENDPOINT : option string;
  OIDC_RP_CLIENT_ID : option string;
  OIDC_REQ_METADATA : option bool;
  OIDC_STATE_SIZE : option Z;
  OIDC_REDIRECT_FIELD_NAME : option string;
  OIDC_AUTHENTICATION_CALLBACK_URL : option string;
  OIDC_RP_SCOPES : option string;
  OIDC_AUTH_REQUEST_EXTRA_PARAMS : option (list (string * string));
  OIDC_USE_NONCE : option bool;
  OIDC_NONCE_SIZE : option Z
}.

(** What [get_from_op_metadata(attr)] gives for each setting the view looks
    up, in the type of that setting: a value, or an exception. *)
Record OpMetadata : Type := mkOpMetadata {
  published_OP_AUTHORIZATION_ENDPOINT : outcome string;
  published_RP_CLIENT_ID : outcome string;
  published_STATE_SIZE : outcome Z;
  published_REDIRECT_FIELD_NAME : outcome string;
  published_AUTHENTICATION_CALLBACK_URL : outcome string;
  published_RP_SCOPES : outcome string;
  published_AUTH_REQUEST_EXTRA_PARAMS : outcome (list (string * string));
  published_USE_NONCE : outcome bool;
  published_NONCE_SIZE : outcome Z
}.

(** What the request view calls and does not define:
    [is_obtainable_from_op_metadata], [get_from_op_metadata] and
    [absolutify] of mozilla_django_oidc/utils.py (not among the sources),
    Django's [get_random_string] (the i-th string drawn while the request is
    handled, for the requested length) and [reverse] (it may raise), and
    [urlencode]. *)
Record Collaborators : Type := mkCollaborators {
  view_settings : RequestSettings;
  is_obtainable_from_op_metadata : string -> bool;
  get_from_op_metadata : OpMetadata;
  get_random_string : nat -> Z -> string;
  reverse : string -> outcome string;
  absolutify : Request -> string -> string;
  urlencode : list (string * string) -> string
}.

(** Modelled from the spec: [import_from_settings(attr, *args)] of
    mozilla_django_oidc/utils.py when the caller may give no default. A
    configured setting is returned; else the default, when there is one;
    a missing required setting is a configuration error, which is raised. *)
Definition import_setting {A : Type} (configured : option A) (args : option A) : outcome A :=
  match configured, args with
  | Some v, _ => Return v
  | None, Some dflt => Return dflt
  | None, None => Raise (ExternalError "ImproperlyConfigured")
  end.

(** A Python dict of strings, as the list of its items in insertion order.
    [d[k] = v] replaces the value of a key that is there, in place, and
    appends a new key. *)
Fixpoint dict_setitem (d : list (string * string)) (k v : string) : list (string * string) :=
  match d with
  | [] => [(k, v)]
  | (k', v') :: d' =>
      if String.eqb k' k then (k', v) :: d' else (k', v') :: dict_setitem d' k v
  end.

(** [d.update(other)]. *)
Definition dict_update (d other : list (string * string)) : list (string * string) :=
  fold_left (fun acc item => dict_setitem acc item.1 item.2) other d.

(** [d.get(k)]. *)
Fixpoint dict_get (d : list (string * string)) (k : string) : option string :=
  match d with
  | [] => None
  | (k', v') :: d' => if String.eqb k' k then Some v' else dict_get d' k
  end.

(** The parameters of the authorization request that lines 158-175 of the
    request view build: the five fixed keys, updated with the extra
    parameters, then with the nonce when there is one. *)
Definition authorization_params (scope client_id redirect_uri state : string)
    (extra : list (string * string)) (nonce : option string) : list (string * string) :=
  let params :=
    dict_update [("response_type", "code");
                 ("scope", scope);
                 ("client_id", client_id);
                 ("redirect_uri", redirect_uri);
                 ("state", state)] extra in
  match nonce with
  | Some n => dict_update params [("nonce", n)]
  | None => params
  end.

Module RequestView.

Section RequestView.

Variable C : Collaborators.
Variable E : Externals.

(** What [get_settings(attr, *args)] returns or raises: the published
    metadata when the setting can be obtained from it and OIDC_REQ_METADATA
    is set, the static configuration otherwise. *)
Definition resolve {A : Type} (attr : string) (configured : option A)
    (published : outcome A) (args : option A) : outcome A :=
  if is_obtainable_from_op_metadata C attr
     && import_from_settings (OIDC_REQ_METADATA (view_settings C)) false
  then published
  else import_setting configured args.

(** The static method [get_settings]. *)
Definition get_settings {A : Type} (attr : string) (configured : option A)
    (published : outcome A) (args : option A) : M A :=
  lift_outcome (resolve attr configured published args).

(** [__init__]: the two attributes the instance keeps,
    [OIDC_OP_AUTH_ENDPOINT] and [OIDC_RP_CLIENT_ID]. *)
Definition init : M (string * string) :=
  endpoint ← get_settings "OIDC_OP_AUTHORIZATION_ENDPOINT"
               (OIDC_OP_AUTHORIZATION_ENDPOINT (view_settings C))
               (published_OP_AUTHORIZATION_ENDPOINT (get_from_op_metadata C)) None;
  client_id ← get_settings "OIDC_RP_CLIENT_ID"
                (OIDC_RP_CLIENT_ID (view_settings C))
                (published_RP_CLIENT_ID (get_from_op_metadata C)) None;
  mret (endpoint, client_id).

Definition get_extra_params : M (list (string * string)) :=
  get_settings "OIDC_AUTH_REQUEST_EXTRA_PARAMS"
    (OIDC_AUTH_REQUEST_EXTRA_PARAMS (view_settings C))
    (published_AUTH_REQUEST_EXTRA_PARAMS (get_from_op_metadata C)) (Some []).

(** [OIDCAuthenticationRequestView.get]; [self] is the pair of attributes
    set by [__init__]. *)
Definition get (self : string * string) : M Response :=
  state_size ← get_settings "OIDC_STATE_SIZE" (OIDC_STATE_SIZE (view_settings C))
                 (published_STATE_SIZE (get_from_op_metadata C)) (Some 32%Z);
  let state := get_random_string C 0 state_size in
  redirect_field_name ←
    get_settings "OIDC_REDIRECT_FIELD_NAME" (OIDC_REDIRECT_FIELD_NAME (view_settings C))
      (published_REDIRECT_FIELD_NAME (get_from_op_metadata C)) (Some "next");
  reverse_url ←
    get_settings "OIDC_AUTHENTICATION_CALLBACK_URL"
      (OIDC_AUTHENTICATION_CALLBACK_URL (view_settings C))
      (published_AUTHENTICATION_CALLBACK_URL (get_from_op_metadata C))
      (Some "oidc_authentication_callback");
  scope ← get_settings "OIDC_RP_SCOPES" (OIDC_RP_SCOPES (view_settings C))
            (published_RP_SCOPES (get_from_op_metadata C)) (Some "openid email");
  path ← lift_outcome (reverse C reverse_url);
  r ← the_request;
  let params :=
    [("response_type", "code");
     ("scope", scope);
     ("client_id", self.2);
     ("redirect_uri", absolutify C r path);
     ("state", state)] in
  extra ← get_extra_params;
  let params := dict_update params extra in
  use_nonce ← get_settings "OIDC_USE_NONCE" (OIDC_USE_NONCE (view_settings C))
                (published_USE_NONCE (get_from_op_metadata C)) (Some true);
  params ←
    (if use_nonce : bool then
       nonce_size ← get_settings "OIDC_NONCE_SIZE" (OIDC_NONCE_SIZE (view_settings C))
                      (published_NONCE_SIZE (get_from_op_metadata C)) (Some 32%Z);
       let nonce := get_random_string C 1 nonce_size in
       let params := dict_update params [("nonce", nonce)] in
       session_setitem "oidc_nonce" (PStr nonce);;
       mret params
     else mret params);
  session_setitem "oidc_state" (PStr state);;
  next_url ← get_next_url E redirect_field_name;
  session_setitem "oidc_login_next" next_url;;
  let query := urlencode C params in
  let redirect_url := String.append self.1 (String.append "?" query) in
  mret (HttpResponseRedirect (PStr redirect_url)).

End RequestView.

(** The view class of an instance. *)
Definition view (C : Collaborators) (E : Externals) (self : string * string) : ViewClass :=
  mkView ["get"] [("get", get C E self)].

(** The function that [as_view()] returns: an instance is made, which runs
    [__init__], and the request is dispatched to it. *)
Definition as_view (C : Collaborators) (E : Externals) : M Response :=
  self ← init C;
  dispatch (view C E self).

End RequestView.

(** The session that the request view leaves: the nonce when there is one,
    the state and the next url are written, in this order. *)
Definition issued_session (s : gmap string pyval) (state : string)
    (nonce : option string) (next_url : pyval) : gmap string pyval :=
  <["oidc_login_next" := next_url]>
    (<["oidc_state" := PStr state]>
       (match nonce with
        | Some n => <["oidc_nonce" := PStr n]> s
        | None => s
        end)).

(** The request that a user agent sends next, with the query [q] and the
    verb GET: the session and the user are those that [w] holds. *)
Definition follow_up (q : QueryDict) (w : World) : Request :=
  mkRequest q (session (request w)) (user (request w)) "GET"
            (is_secure (request w)) (get_host (request w)).

Module DemoRequest.

Definition configured : RequestSettings :=
  mkRequestSettings (Some "https://op.example/authorize") (Some "rp-client")
                    None None None None None None None None.

Definition unpublished : OpMetadata :=
  mkOpMetadata (Raise (ExternalError "metadata")) (Raise (ExternalError "metadata"))
               (Raise (ExternalError "metadata")) (Raise (ExternalError "metadata"))
               (Raise (ExternalError "metadata")) (Raise (ExternalError "metadata"))
               (Raise (ExternalError "metadata")) (Raise (ExternalError "metadata"))
               (Raise (ExternalError "metadata")).

(** A string of the requested length: the letter a for the first draw, b
    for the second. *)
Definition drawn (i : nat) (length : Z) : string :=
  string_of_list_ascii
    (repeat (ascii_of_nat (97 + i)) (Z.to_nat length)).

Definition reverse_callback (name : string) : outcome string :=
  if String.eqb name "oidc_authentication_callback"
  then Return "/oidc/callback/"
  else Raise (ExternalError "NoReverseMatch").

Definition absolute (r : Request) (path : string) : string :=
  match get_host r with
  | Return host => String.append "https://" (String.append host path)
  | Raise _ => path
  end.

(** The items joined by ampersands, without quoting. *)
Fixpoint joined (params : list (string * string)) : string :=
  match params with
  | [] => ""
  | [(k, v)] => String.append k (String.append "=" v)
  | (k, v) :: rest =>
      String.append k (String.append "=" (String.append v (String.append "&" (joined rest))))
  end.

Definition collaborators : Collaborators :=
  mkCollaborators configured (fun _ => false) unpublished drawn reverse_callback
                  absolute joined.

Definition visit (q : QueryDict) (s : gmap string pyval) : Request :=
  mkRequest q s None "GET" true (Return "rp.example").

(** Settings that name a function for the logout url of the OP. *)
Definition with_op_logout : Settings :=
  mkSettings None None None None None (Some "/bye") (Some "rp.views.op_logout").

Definition broken_op_logout (name : string) (r : Request) : Request * outcome string :=
  (r, Raise (ExternalError "ImportError")).

Definition op_logout_env : Externals :=
  mkExternals with_op_logout Demo.strict_backend Demo.login_user Demo.flush_user
              1700000000 Demo.relative_only Demo.op_logout.

Definition broken_op_logout_env : Externals :=
  mkExternals with_op_logout Demo.strict_backend Demo.login_user Demo.flush_user
              1700000000 Demo.relative_only broken_op_logout.

(** Settings with a failure url and a success url of their own. *)
Definition with_urls : Settings :=
  mkSettings (Some "/denied") (Some "/welcome") None None None None None.

Definition denied_env : Externals :=
  mkExternals with_urls Demo.strict_backend Demo.login_user Demo.flush_user
              1700000000 Demo.relative_only Demo.op_logout.

Definition leaving (u : option User) : Request :=
  mkRequest [] {["oidc_state" := PStr "s1"]} u "POST" true (Return "rp.example").

End DemoRequest.

(** * Properties *)

(** ** Query dictionaries *)

Lemma QueryDict_get_str (q : QueryDict) (key s : string) :
  QueryDict_get q key = PStr s ->
  QueryDict_contains q key = true /\ QueryDict_getitem q key = Return s.
Proof.
  unfold QueryDict_get, QueryDict_contains, QueryDict_getitem.
  destruct (getlist q key) as [|v vs] eqn:Hl; simpl; [discriminate|].
  destruct (last (v :: vs)) as [x|]; [|discriminate].
  intros [= ->]. auto.
Qed.

Lemma QueryDict_contains_get (q : QueryDict) (key : string) :
  QueryDict_contains q key = true ->
  exists s, QueryDict_get q key = PStr s.
Proof.
  unfold QueryDict_get, QueryDict_contains.
  destruct (getlist q key) as [|v vs] eqn:Hl; [discriminate|]. intros _.
  destruct (last_is_Some (v :: vs)) as [_ H].
  destruct H as [x Hx]; [discriminate|]. rewrite Hx. eauto.
Qed.

Lemma QueryDict_get_none (q : QueryDict) (key : string) :
  QueryDict_get q key = PNone <-> QueryDict_contains q key = false.
Proof.
  split.
  - intros H. destruct (QueryDict_contains q key) eqn:Hc; [|reflexivity].
    apply QueryDict_contains_get in Hc as [s Hs]. congruence.
  - unfold QueryDict_get, QueryDict_contains.
    destruct (getlist q key); [reflexivity | discriminate].
Qed.

Example QueryDict_get_last :
  QueryDict_get [("error", "access_denied"); ("error", "")] "error" = PStr "" /\
  QueryDict_contains [("error", "access_denied"); ("error", "")] "error" = true /\
  QueryDict_get [("code", "c")] "error" = PNone.
Proof. repeat split; reflexivity. Qed.

Example truthy_values :
  truthy PNone = false /\ truthy (PStr "") = false /\ truthy (PStr "x") = true /\
  py_or (PStr "") (PStr "/") = PStr "/" /\ py_or (PStr "/next") (PStr "/") = PStr "/next".
Proof. repeat split; reflexivity. Qed.

(** ** The nonce step *)

Lemma after_nonce_GET (r : Request) : GET (after_nonce r) = GET r.
Proof. unfold after_nonce. destruct (truthy (nonce_of r)); reflexivity. Qed.

Lemma after_nonce_user (r : Request) : user (after_nonce r) = user r.
Proof. unfold after_nonce. destruct (truthy (nonce_of r)); reflexivity. Qed.

Lemma after_nonce_other (r : Request) (key : string) :
  key <> "oidc_nonce" -> session (after_nonce r) !! key = session r !! key.
Proof.
  intros Hk. unfold after_nonce. destruct (truthy (nonce_of r)); [|reflexivity].
  simpl. apply lookup_delete_ne. congruence.
Qed.

Lemma after_nonce_deleted (r : Request) :
  truthy (nonce_of r) = true -> session (after_nonce r) !! "oidc_nonce" = None.
Proof.
  intros Ht. unfold after_nonce. rewrite Ht. simpl. apply lookup_delete_eq.
Qed.

Lemma after_nonce_falsy (r : Request) :
  truthy (nonce_of r) = false -> after_nonce r = r.
Proof. intros Ht. unfold after_nonce. rewrite Ht. reflexivity. Qed.

Lemma consume_nonce_run (w : World) :
  consume_nonce w = (mkWorld (after_nonce (request w)) (calls w),
                       Return (nonce_of (request w))).
Proof.
  unfold consume_nonce, after_nonce, nonce_of, session_get, session_delitem,
    mbind, M_bind, mret, M_ret.
  destruct w as [r cs]; simpl.
  destruct (session r !! "oidc_nonce") as [v|] eqn:Hn; simpl.
  - destruct (truthy v); [cbn [request calls]; rewrite Hn|]; reflexivity.
  - reflexivity.
Qed.

(** ** The three branches of the callback *)

Ltac unfold_monad :=
  unfold mbind, M_bind, mret, M_ret, fmap, M_fmap, the_request, raise,
    lift_outcome, py_assert, session_get, session_contains, session_getitem,
    session_setitem, auth_authenticate, do_login, do_logout, call_imported.

Lemma login_success_run (E : Externals) (u : User) (r : Request) (cs : list Call) :
  login_success E u (mkWorld r cs) =
    (mkWorld (logged_in E r u) (cs ++ [CallLogin r u]),
     Return (HttpResponseRedirect (success_url_of E (logged_in E r u)))).
Proof.
  unfold login_success, success_url, logged_in, success_url_of. unfold_monad.
  cbn [request calls]. reflexivity.
Qed.

Lemma get_branches (E : Externals) (r : Request) :
  get E (start r) = branches E (nonce_of r) (start (after_nonce r)).
Proof.
  unfold get. unfold mbind at 1. unfold M_bind at 1.
  rewrite consume_nonce_run. reflexivity.
Qed.

Lemma get_start (E : Externals) (r : Request) :
  get E (start r) =
    match (if truthy (QueryDict_get (GET r) "error") then error_branch E
           else if QueryDict_contains (GET r) "code" && QueryDict_contains (GET r) "state"
                then code_branch E (nonce_of r)
                else mret None) (start (after_nonce r)) with
    | (w, Return (Some response)) => (w, Return response)
    | (w, Return None) => (w, Return (HttpResponseRedirect (failure_url E)))
    | (w, Raise e) => (w, Raise e)
    end.
Proof.
  rewrite get_branches. unfold branches.
  unfold mbind at 1. unfold M_bind at 1. unfold the_request at 1.
  cbn [request start]. rewrite after_nonce_GET.
  unfold mbind at 1. unfold M_bind at 1. fold (start (after_nonce r)).
  destruct ((if truthy (QueryDict_get (GET r) "error") then error_branch E
           else if QueryDict_contains (GET r) "code" && QueryDict_contains (GET r) "state"
                then code_branch E (nonce_of r)
                else mret None) (start (after_nonce r))) as [w [[resp|]|e]];
    reflexivity.
Qed.

Lemma get_error_path (E : Externals) (r : Request) :
  truthy (QueryDict_get (GET r) "error") = true ->
  get E (start r) =
    if is_authenticated r
    then (mkWorld (auth_logout E (after_nonce r)) [CallLogout (after_nonce r)],
          if is_authenticated (auth_logout E (after_nonce r))
          then Raise AssertionError
          else Return (HttpResponseRedirect (failure_url E)))
    else (start (after_nonce r), Return (HttpResponseRedirect (failure_url E))).
Proof.
  intros He. rewrite get_start, He.
  assert (Ha : is_authenticated (after_nonce r) = is_authenticated r)
    by (unfold is_authenticated; rewrite after_nonce_user; reflexivity).
  unfold error_branch. unfold_monad. unfold start. cbn [request calls]. rewrite Ha.
  destruct (is_authenticated r) eqn:Hr; cbn [request calls app].
  - destruct (is_authenticated (auth_logout E (after_nonce r))); reflexivity.
  - rewrite Ha. reflexivity.
Qed.

Lemma get_fallthrough (E : Externals) (r : Request) :
  truthy (QueryDict_get (GET r) "error") = false ->
  QueryDict_contains (GET r) "code" && QueryDict_contains (GET r) "state" = false ->
  get E (start r) =
    (start (after_nonce r), Return (HttpResponseRedirect (failure_url E))).
Proof.
  intros He Hc. rewrite get_start, He, Hc. reflexivity.
Qed.

Lemma get_code_path (E : Externals) (r : Request) (s : string) :
  truthy (QueryDict_get (GET r) "error") = false ->
  QueryDict_contains (GET r) "code" = true ->
  QueryDict_get (GET r) "state" = PStr s ->
  get E (start r) =
    match session r !! "oidc_state" with
    | None => (start (after_nonce r), Return (HttpResponseRedirect (failure_url E)))
    | Some stored =>
        if bool_decide (PStr s = stored)
        then backend_path E (after_nonce r) (nonce_of r)
        else (start (after_nonce r), Raise (SuspiciousOperation state_mismatch_msg))
    end.
Proof.
  intros He Hc Hs. apply QueryDict_get_str in Hs as [Hs Hi].
  rewrite get_start, He, Hc, Hs. cbn [andb].
  unfold code_branch, backend_path, py_ne, login_failure. unfold_monad.
  unfold start. cbn [request calls].
  rewrite after_nonce_other by discriminate.
  destruct (session r !! "oidc_state") as [stored|] eqn:Hst.
  - rewrite bool_decide_eq_true_2 by eauto. cbn [negb request calls].
    rewrite after_nonce_GET, Hi, after_nonce_other, Hst by discriminate.
    destruct (bool_decide (PStr s = stored)); cbn [negb request calls]; [|reflexivity].
    destruct (authenticate E (after_nonce r) (nonce_of r)) as [r2 [[u|]|e]];
      cbn [app]; try reflexivity.
    destruct (is_active u); [|reflexivity].
    rewrite login_success_run. reflexivity.
  - rewrite bool_decide_eq_false_2 by (intros [? ?]; discriminate). reflexivity.
Qed.

(** ** The state check (C1) *)

(** C1, as the claim is written, does not hold: a callback that carries
    'code' and 'state', with a stored 'oidc_state' that differs from the
    callback's, but that carries a non-empty 'error' as well, takes the
    error branch, which is tested first, and is answered by the redirect to
    the failure url. *)
Lemma callback_mismatch_behind_error :
  let r := Demo.callback [("error", "access_denied"); ("code", "c"); ("state", "s")]
                         {["oidc_state" := PStr "t"]} None in
  QueryDict_contains (GET r) "code" = true /\
  QueryDict_contains (GET r) "state" = true /\
  session r !! "oidc_state" = Some (PStr "t") /\
  QueryDict_get (GET r) "state" = PStr "s" /\
  get Demo.strict (start r) = (start r, Return (HttpResponseRedirect (PStr "/"))).
Proof. vm_compute. repeat split; reflexivity. Qed.

(** C1 (amended): for every callback request that carries no non-empty
    'error' parameter and carries both 'code' and 'state', where the session
    holds an 'oidc_state' value and the callback's 'state' differs from it,
    the handler raises SuspiciousOperation: it returns no redirect, and it
    calls no collaborator. *)
Theorem callback_state_mismatch_raises (E : Externals) (r : Request) (stored : pyval) :
  truthy (QueryDict_get (GET r) "error") = false ->
  QueryDict_contains (GET r) "code" = true ->
  QueryDict_contains (GET r) "state" = true ->
  session r !! "oidc_state" = Some stored ->
  QueryDict_get (GET r) "state" <> stored ->
  get E (start r) =
    (start (after_nonce r), Raise (SuspiciousOperation state_mismatch_msg)).
Proof.
  intros He Hc Hs Hst Hne.
  destruct (QueryDict_contains_get _ _ Hs) as [s Hget].
  rewrite (get_code_path E r s He Hc Hget), Hst.
  rewrite bool_decide_eq_false_2; [reflexivity|]. congruence.
Qed.

Lemma callback_state_mismatch_raises_witness :
  get Demo.strict
      (start (Demo.callback [("code", "c"); ("state", "s")]
                            {["oidc_state" := PStr "t"]} None)) =
    (start (after_nonce (Demo.callback [("code", "c"); ("state", "s")]
                                       {["oidc_state" := PStr "t"]} None)),
     Raise (SuspiciousOperation state_mismatch_msg)).
Proof.
  apply (callback_state_mismatch_raises Demo.strict
           (Demo.callback [("code", "c"); ("state", "s")]
                          {["oidc_state" := PStr "t"]} None)
           (PStr "t")).
  - reflexivity.
  - reflexivity.
  - reflexivity.
  - reflexivity.
  - discriminate.
Defined.

(** ** The nonce is consumed first (C2) *)

(** C2, as the claim is written, does not hold: line 67 tests the
    truthiness of the nonce, so an 'oidc_nonce' that the session holds as
    the empty string is left in the session by the callback. *)
Lemma callback_keeps_empty_nonce :
  let r := Demo.callback [("code", "c"); ("state", "s")]
                         {["oidc_nonce" := PStr ""]} None in
  session r !! "oidc_nonce" = Some (PStr "") /\
  session (request (get Demo.strict (start r)).1) !! "oidc_nonce" = Some (PStr "").
Proof. vm_compute. split; reflexivity. Qed.

(** C2 (amended): for every callback request, if the session holds a truthy
    (not None, not empty) 'oidc_nonce' value, it is deleted from the session
    as the first action of the handler: the error branch, the state checks
    and the backend call all run on the request without it, so the first
    collaborator that is called, if any, receives the session without the
    nonce, and where none is called the handler leaves the session without
    it, whether the callback succeeds, fails or raises. *)
Theorem callback_consumes_nonce_first (E : Externals) (r : Request) :
  truthy (nonce_of r) = true ->
  let r1 := with_session r (delete "oidc_nonce" (session r)) in
  session r1 !! "oidc_nonce" = None /\
  get E (start r) = branches E (nonce_of r) (start r1) /\
  match calls (get E (start r)).1 with
  | [] => request (get E (start r)).1 = r1
  | c :: _ => call_request c = r1
  end.
Proof.
  intros Ht r1.
  assert (Hr1 : after_nonce r = r1) by (unfold after_nonce; rewrite Ht; reflexivity).
  split; [apply lookup_delete_eq|].
  split; [rewrite get_branches, Hr1; reflexivity|].
  rewrite <- Hr1.
  destruct (truthy (QueryDict_get (GET r) "error")) eqn:He.
  - rewrite (get_error_path E r He).
    destruct (is_authenticated r); reflexivity.
  - destruct (QueryDict_contains (GET r) "code" && QueryDict_contains (GET r) "state")
      eqn:Hc.
    + apply andb_prop in Hc as [Hc Hs].
      destruct (QueryDict_contains_get _ _ Hs) as [s Hget].
      rewrite (get_code_path E r s He Hc Hget).
      destruct (session r !! "oidc_state") as [stored|]; [|reflexivity].
      destruct (bool_decide (PStr s = stored)); [|reflexivity].
      unfold backend_path.
      destruct (authenticate E (after_nonce r) (nonce_of r)) as [r2 [[u|]|e]];
        try reflexivity.
      destruct (is_active u); reflexivity.
    + rewrite (get_fallthrough E r He Hc). reflexivity.
Qed.

Lemma callback_consumes_nonce_first_witness :
  let r := Demo.callback [("code", "good"); ("state", "s1")]
             (<["oidc_state" := PStr "s1"]> {["oidc_nonce" := PStr "n0nce"]}) None in
  let r1 := with_session r (delete "oidc_nonce" (session r)) in
  session r1 !! "oidc_nonce" = None /\
  get Demo.strict (start r) = branches Demo.strict (nonce_of r) (start r1) /\
  match calls (get Demo.strict (start r)).1 with
  | [] => request (get Demo.strict (start r)).1 = r1
  | c :: _ => call_request c = r1
  end.
Proof.
  apply (callback_consumes_nonce_first Demo.strict
           (Demo.callback [("code", "good"); ("state", "s1")]
              (<["oidc_state" := PStr "s1"]> {["oidc_nonce" := PStr "n0nce"]}) None)).
  reflexivity.
Defined.

(** ** A callback that arrives twice (C3) *)

Lemma demo_keeps (backend : Request -> pyval -> Request * outcome (option User)) (key : string) :
  (forall r n, (backend r n).1 = r) ->
  externals_keep
    (mkExternals Demo.defaults backend Demo.login_user Demo.flush_user 1700000000
                 Demo.relative_only Demo.op_logout) key.
Proof.
  intros Hb. split.
  - intros r n. cbn [authenticate]. rewrite Hb. reflexivity.
  - intros r u. reflexivity.
Qed.

(** C3, as the claim is written, does not hold: the handler never removes
    'oidc_state', so the same callback arriving again finds it and passes
    the stored-state checks. With a backend that verifies the nonce, the
    second invocation reaches the backend, with the nonce None, and fails
    only there; with a backend that verifies no nonce, the second invocation
    logs the user in again. *)
Lemma callback_replay_reaches_backend :
  let r := Demo.callback [("code", "good"); ("state", "s1")]
             (<["oidc_state" := PStr "s1"]> {["oidc_nonce" := PStr "n0nce"]}) None in
  let again := resubmit r (get Demo.strict (start r)).1 in
  let again' := resubmit r (get Demo.lenient (start r)).1 in
  GET again = GET r /\
  session again !! "oidc_state" = Some (PStr "s1") /\
  session again !! "oidc_nonce" = None /\
  get Demo.strict (start again) =
    (mkWorld again [CallAuthenticate again PNone],
     Return (HttpResponseRedirect (PStr "/"))) /\
  (get Demo.lenient (start again')).2 = Return (HttpResponseRedirect (PStr "/")) /\
  map is_login_call (calls (get Demo.lenient (start again')).1) = [false; true] /\
  user (request (get Demo.lenient (start again')).1) = Some Demo.alice.
Proof. vm_compute. repeat split; reflexivity. Qed.

(** C3 (amended): for every pair of identical callback requests (no
    non-empty 'error', both 'code' and 'state') processed in sequence
    against the same session, where the first one passed the stored-state
    checks and the backend and auth.login leave 'oidc_state' in the session:
    the session still holds the same 'oidc_state' afterwards, so the second
    invocation passes the stored-state checks as well and calls the backend;
    what it returns is decided by the backend's answer. If nothing stored an
    'oidc_nonce' in between, the nonce handed to the backend the second
    time is falsy, the first invocation having consumed it. *)
Theorem callback_replay_passes_state_checks (E : Externals) (r : Request) (s : string) :
  externals_keep E "oidc_state" ->
  truthy (QueryDict_get (GET r) "error") = false ->
  QueryDict_contains (GET r) "code" = true ->
  QueryDict_get (GET r) "state" = PStr s ->
  session r !! "oidc_state" = Some (PStr s) ->
  let again := resubmit r (get E (start r)).1 in
  session again !! "oidc_state" = Some (PStr s) /\
  get E (start again) = backend_path E (after_nonce again) (nonce_of again) /\
  (exists rest, calls (get E (start again)).1 =
                  CallAuthenticate (after_nonce again) (nonce_of again) :: rest) /\
  (externals_keep E "oidc_nonce" -> truthy (nonce_of again) = false).
Proof.
  intros [Kb Kl] He Hc Hs Hst again.
  assert (Hfirst : forall key, key <> "oidc_id_token_expiration" ->
            (forall r0 n, session (authenticate E r0 n).1 !! key = session r0 !! key) ->
            (forall r0 u, session (auth_login E r0 u) !! key = session r0 !! key) ->
            session again !! key = session (after_nonce r) !! key).
  { intros key Hk Kb' Kl'. unfold again, resubmit. cbn [session].
    rewrite (get_code_path E r s He Hc Hs), Hst.
    rewrite bool_decide_eq_true_2 by reflexivity.
    unfold backend_path.
    pose proof (Kb' (after_nonce r) (nonce_of r)) as Hb.
    destruct (authenticate E (after_nonce r) (nonce_of r)) as [r2 [[u|]|e]];
      cbn [fst] in Hb; try exact Hb.
    destruct (is_active u); [|exact Hb].
    cbn [fst request]. unfold logged_in. cbn [session with_session].
    rewrite lookup_insert_ne by congruence. rewrite Kl'. exact Hb. }
  assert (Hagain : session again !! "oidc_state" = Some (PStr s)).
  { rewrite (Hfirst "oidc_state") by (discriminate || assumption).
    rewrite after_nonce_other by discriminate. exact Hst. }
  assert (Hrun : get E (start again) =
                   backend_path E (after_nonce again) (nonce_of again)).
  { rewrite (get_code_path E again s); [| exact He | exact Hc | exact Hs ].
    rewrite Hagain. rewrite bool_decide_eq_true_2 by reflexivity. reflexivity. }
  split; [exact Hagain|]. split; [exact Hrun|]. split.
  - rewrite Hrun. unfold backend_path.
    destruct (authenticate E (after_nonce again) (nonce_of again)) as [r2 [[u|]|e]];
      [destruct (is_active u)| |]; cbn [fst calls]; eauto.
  - intros [Kb' Kl']. unfold nonce_of at 1.
    rewrite (Hfirst "oidc_nonce") by (discriminate || assumption).
    destruct (truthy (nonce_of r)) eqn:Ht.
    + rewrite after_nonce_deleted by exact Ht. reflexivity.
    + rewrite after_nonce_falsy by exact Ht. exact Ht.
Qed.

Lemma callback_replay_passes_state_checks_witness :
  let r := Demo.callback [("code", "good"); ("state", "s1")]
             (<["oidc_state" := PStr "s1"]> {["oidc_nonce" := PStr "n0nce"]}) None in
  let again := resubmit r (get Demo.strict (start r)).1 in
  session again !! "oidc_state" = Some (PStr "s1") /\
  get Demo.strict (start again) =
    backend_path Demo.strict (after_nonce again) (nonce_of again) /\
  (exists rest, calls (get Demo.strict (start again)).1 =
                  CallAuthenticate (after_nonce again) (nonce_of again) :: rest) /\
  (externals_keep Demo.strict "oidc_nonce" -> truthy (nonce_of again) = false).
Proof.
  apply (callback_replay_passes_state_checks Demo.strict
           (Demo.callback [("code", "good"); ("state", "s1")]
              (<["oidc_state" := PStr "s1"]> {["oidc_nonce" := PStr "n0nce"]}) None)
           "s1").
  - apply demo_keeps. intros r n. reflexivity.
  - reflexivity.
  - reflexivity.
  - reflexivity.
  - reflexivity.
Defined.

(** ** The error branch (C4) *)

(** C4: for every callback request whose query carries an error indicator
    (a non-empty 'error' value) and every prior session: when the user was
    authenticated, auth.logout is called, on the request whose nonce has
    been consumed; the user of the request is anonymous afterwards; and the
    response is the redirect (status 302) to the configured failure url,
    the setting LOGIN_REDIRECT_URL_FAILURE, "/" when it is not configured.
    auth.logout is assumed to leave the anonymous user, which line 79
    asserts. *)
Theorem callback_error_logs_out (E : Externals) (r : Request) :
  logout_unauthenticates E ->
  truthy (QueryDict_get (GET r) "error") = true ->
  let failure :=
    HttpResponseRedirect
      (PStr match LOGIN_REDIRECT_URL_FAILURE (settings E) with
            | Some url => url
            | None => "/"
            end) in
  (get E (start r)).2 = Return failure /\
  status_code failure = 302%Z /\
  user (request (get E (start r)).1) = None /\
  get E (start r) =
    (if is_authenticated r
     then mkWorld (auth_logout E (after_nonce r)) [CallLogout (after_nonce r)]
     else start (after_nonce r),
     Return failure).
Proof.
  intros Hl He failure. rewrite (get_error_path E r He).
  assert (Hout : is_authenticated (auth_logout E (after_nonce r)) = false)
    by (unfold is_authenticated; rewrite Hl; reflexivity).
  rewrite Hout.
  destruct (is_authenticated r) eqn:Ha; cbn [fst snd request start].
  - repeat split. apply Hl.
  - repeat split. rewrite after_nonce_user.
    unfold is_authenticated in Ha. destruct (user r); [discriminate | reflexivity].
Qed.

Lemma callback_error_logs_out_witness :
  let E := DemoRequest.denied_env in
  let r := Demo.callback [("error", "access_denied")]
             {["oidc_nonce" := PStr "n0nce"]} (Some Demo.alice) in
  let failure :=
    HttpResponseRedirect
      (PStr match LOGIN_REDIRECT_URL_FAILURE (settings E) with
            | Some url => url
            | None => "/"
            end) in
  failure = HttpResponseRedirect (PStr "/denied") /\
  (get E (start r)).2 = Return failure /\
  status_code failure = 302%Z /\
  user (request (get E (start r)).1) = None /\
  get E (start r) =
    (if is_authenticated r
     then mkWorld (auth_logout E (after_nonce r)) [CallLogout (after_nonce r)]
     else start (after_nonce r),
     Return failure).
Proof.
  intros E r. split; [reflexivity|].
  apply (callback_error_logs_out E r).
  - intros r0. reflexivity.
  - reflexivity.
Defined.

(** ** A callback without stored state (C5) *)

(** C5: for every callback request carrying both 'code' and 'state' where
    the session holds no 'oidc_state' key, the handler returns the redirect
    to the configured failure url, the setting LOGIN_REDIRECT_URL_FAILURE,
    "/" when it is not configured, and the authentication backend is not
    called. (Where the request carries a non-empty 'error' as well, the
    redirect comes from the error branch; auth.logout is assumed to leave
    the anonymous user, as line 79 asserts.) *)
Theorem callback_without_state_fails (E : Externals) (r : Request) :
  logout_unauthenticates E ->
  QueryDict_contains (GET r) "code" = true ->
  QueryDict_contains (GET r) "state" = true ->
  session r !! "oidc_state" = None ->
  (get E (start r)).2 =
    Return (HttpResponseRedirect
              (PStr match LOGIN_REDIRECT_URL_FAILURE (settings E) with
                    | Some url => url
                    | None => "/"
                    end)) /\
  forall c, c ∈ calls (get E (start r)).1 -> is_backend_call c = false.
Proof.
  intros Hl Hc Hs Hst.
  destruct (truthy (QueryDict_get (GET r) "error")) eqn:He.
  - rewrite (get_error_path E r He).
    assert (Hout : is_authenticated (auth_logout E (after_nonce r)) = false)
      by (unfold is_authenticated; rewrite Hl; reflexivity).
    rewrite Hout.
    destruct (is_authenticated r); cbn [fst snd calls start]; split;
      try reflexivity; intros c Hin.
    + apply list_elem_of_singleton in Hin. subst c. reflexivity.
    + inversion Hin.
  - destruct (QueryDict_contains_get _ _ Hs) as [s Hget].
    rewrite (get_code_path E r s He Hc Hget), Hst. cbn [fst snd calls start].
    split; [reflexivity|]. intros c Hin. inversion Hin.
Qed.

Lemma callback_without_state_fails_witness :
  let E := DemoRequest.denied_env in
  let r := Demo.callback [("code", "good"); ("state", "s1")]
             {["oidc_nonce" := PStr "n0nce"]} None in
  (get E (start r)).2 = Return (HttpResponseRedirect (PStr "/denied")) /\
  (get E (start r)).2 =
    Return (HttpResponseRedirect
              (PStr match LOGIN_REDIRECT_URL_FAILURE (settings E) with
                    | Some url => url
                    | None => "/"
                    end)) /\
  forall c, c ∈ calls (get E (start r)).1 -> is_backend_call c = false.
Proof.
  intros E r. split; [reflexivity|].
  apply (callback_without_state_fails E r).
  - intros r0. reflexivity.
  - reflexivity.
  - reflexivity.
  - reflexivity.
Defined.

(** ** A successful callback (C6) *)

(** The backend is called only past the state checks, on the request
    without the consumed nonce and with the nonce that was read. *)
Lemma backend_call_inv (E : Externals) (r r1 : Request) (n : pyval) :
  CallAuthenticate r1 n ∈ calls (get E (start r)).1 ->
  r1 = after_nonce r /\ n = nonce_of r /\
  truthy (QueryDict_get (GET r) "error") = false /\
  QueryDict_contains (GET r) "code" = true /\
  session r !! "oidc_state" = Some (QueryDict_get (GET r) "state") /\
  get E (start r) = backend_path E (after_nonce r) (nonce_of r).
Proof.
  intros Hin.
  destruct (truthy (QueryDict_get (GET r) "error")) eqn:He.
  { exfalso. rewrite (get_error_path E r He) in Hin.
    destruct (is_authenticated r); cbn [fst calls start] in Hin.
    - apply list_elem_of_singleton in Hin. discriminate.
    - inversion Hin. }
  destruct (QueryDict_contains (GET r) "code" && QueryDict_contains (GET r) "state") eqn:Hcs.
  2:{ exfalso. rewrite (get_fallthrough E r He Hcs) in Hin. inversion Hin. }
  apply andb_prop in Hcs as [Hc Hs].
  destruct (QueryDict_contains_get _ _ Hs) as [s Hget].
  rewrite (get_code_path E r s He Hc Hget) in Hin |- *. rewrite Hget.
  destruct (session r !! "oidc_state") as [stored|]; [|inversion Hin].
  destruct (bool_decide (PStr s = stored)) eqn:Heq; [|inversion Hin].
  apply bool_decide_eq_true_1 in Heq. subst stored.
  assert (Hcall : CallAuthenticate r1 n = CallAuthenticate (after_nonce r) (nonce_of r)).
  { unfold backend_path in Hin.
    destruct (authenticate E (after_nonce r) (nonce_of r)) as [r2 [[u|]|e]].
    - destruct (is_active u); cbn [fst calls] in Hin.
      + apply elem_of_cons in Hin as [Hin|Hin]; [exact Hin|].
        apply list_elem_of_singleton in Hin. discriminate.
      + apply list_elem_of_singleton in Hin. exact Hin.
    - apply list_elem_of_singleton in Hin. exact Hin.
    - apply list_elem_of_singleton in Hin. exact Hin. }
  injection Hcall as -> ->. repeat split; (reflexivity || assumption).
Qed.

(** C6: for every callback with matching stored and callback 'state' in
    which the backend is called and returns an active principal [u]:
    auth.login is called for [u] on the request the backend left; the
    session key 'oidc_id_token_expiration' is set to the current time plus
    the configured interval, 900 when OIDC_RENEW_ID_TOKEN_EXPIRY_SECONDS is
    not configured; and the response redirects to the 'oidc_login_next' of
    the session when it holds one (a truthy value), else to
    LOGIN_REDIRECT_URL, "/" when it is not configured. The session is read
    after auth.login; it holds the 'oidc_login_next' that was stored when
    the callback arrived provided the backend and auth.login leave that key
    alone. *)
Theorem callback_success_effects
    (E : Externals) (r : Request) (s : string) (r1 : Request) (n : pyval)
    (r2 : Request) (u : User) :
  QueryDict_get (GET r) "state" = PStr s ->
  session r !! "oidc_state" = Some (PStr s) ->
  CallAuthenticate r1 n ∈ calls (get E (start r)).1 ->
  authenticate E r1 n = (r2, Return (Some u)) ->
  is_active u = true ->
  let r3 := auth_login E r2 u in
  let expiry :=
    PNum (time_time E +
          match OIDC_RENEW_ID_TOKEN_EXPIRY_SECONDS (settings E) with
          | Some interval => interval
          | None => 900
          end) in
  let fallback :=
    PStr (match LOGIN_REDIRECT_URL (settings E) with
          | Some url => url
          | None => "/"
          end) in
  let target :=
    match session r3 !! "oidc_login_next" with
    | Some next_url => if truthy next_url then next_url else fallback
    | None => fallback
    end in
  get E (start r) =
    (mkWorld (with_session r3 (<["oidc_id_token_expiration" := expiry]> (session r3)))
             [CallAuthenticate r1 n; CallLogin r2 u],
     Return (HttpResponseRedirect target)) /\
  session (request (get E (start r)).1) !! "oidc_id_token_expiration" = Some expiry /\
  status_code (HttpResponseRedirect target) = 302%Z /\
  (externals_keep E "oidc_login_next" ->
   session r3 !! "oidc_login_next" = session r !! "oidc_login_next").
Proof.
  intros Hs Hst Hin Hb Hact r3 expiry fallback target.
  destruct (backend_call_inv E r r1 n Hin) as (-> & -> & _ & _ & _ & Hrun).
  assert (Htarget : success_url_of E (logged_in E r2 u) = target).
  { unfold success_url_of, logged_in, target, fallback, py_or, import_from_settings.
    cbn [session with_session]. rewrite lookup_insert_ne by discriminate.
    fold r3. destruct (session r3 !! "oidc_login_next"); reflexivity. }
  unfold backend_path in Hrun. rewrite Hb, Hact, Htarget in Hrun.
  rewrite Hrun. cbn [fst request].
  split; [reflexivity|]. split; [|split; [reflexivity|]].
  - unfold logged_in. cbn [session with_session]. apply lookup_insert_eq.
  - intros [Kb Kl]. unfold r3. rewrite Kl.
    pose proof (Kb (after_nonce r) (nonce_of r)) as Hk. rewrite Hb in Hk.
    cbn [fst] in Hk. rewrite Hk. apply after_nonce_other. discriminate.
Qed.

Lemma callback_success_effects_witness :
  let E := Demo.strict in
  let r := Demo.callback [("code", "good"); ("state", "s1")]
             (<["oidc_login_next" := PStr "/dashboard"]>
                (<["oidc_state" := PStr "s1"]> {["oidc_nonce" := PStr "n0nce"]})) None in
  let r3 := auth_login E (after_nonce r) Demo.alice in
  let expiry :=
    PNum (time_time E +
          match OIDC_RENEW_ID_TOKEN_EXPIRY_SECONDS (settings E) with
          | Some interval => interval
          | None => 900
          end) in
  let fallback :=
    PStr (match LOGIN_REDIRECT_URL (settings E) with
          | Some url => url
          | None => "/"
          end) in
  let target :=
    match session r3 !! "oidc_login_next" with
    | Some next_url => if truthy next_url then next_url else fallback
    | None => fallback
    end in
  (expiry = PNum 1700000900 /\ target = PStr "/dashboard") /\
  get E (start r) =
    (mkWorld (with_session r3 (<["oidc_id_token_expiration" := expiry]> (session r3)))
             [CallAuthenticate (after_nonce r) (PStr "n0nce");
              CallLogin (after_nonce r) Demo.alice],
     Return (HttpResponseRedirect target)) /\
  session (request (get E (start r)).1) !! "oidc_id_token_expiration" = Some expiry /\
  status_code (HttpResponseRedirect target) = 302%Z /\
  (externals_keep E "oidc_login_next" ->
   session r3 !! "oidc_login_next" = session r !! "oidc_login_next").
Proof.
  intros E r. split; [split; reflexivity|].
  apply (callback_success_effects E r "s1" (after_nonce r) (PStr "n0nce")
           (after_nonce r) Demo.alice).
  - reflexivity.
  - reflexivity.
  - vm_compute. apply list_elem_of_here.
  - reflexivity.
  - reflexivity.
Defined.

(** ** The responses of the callback (C7) *)

Lemma dispatch_callback_get (E : Externals) (r : Request) :
  method r = "GET" ->
  dispatch (OIDCAuthenticationCallbackView E) (start r) = get E (start r).
Proof.
  intros Hm. unfold dispatch. unfold_monad. cbn [request start]. rewrite Hm.
  reflexivity.
Qed.

(** C7, as the claim is written, does not hold: a GET request on the
    callback route whose 'state' differs from the stored 'oidc_state' gets
    no response from the view, which raises SuspiciousOperation. *)
Lemma callback_get_without_response :
  let r := Demo.callback [("code", "c"); ("state", "forged")]
                         {["oidc_state" := PStr "s1"]} None in
  method r = "GET" /\
  dispatch (OIDCAuthenticationCallbackView Demo.strict) (start r) =
    (start r, Raise (SuspiciousOperation state_mismatch_msg)).
Proof. vm_compute. split; reflexivity. Qed.

(** C7 (amended): for every GET request on the callback route, whatever
    'error', 'code' and 'state' parameters are present and whatever the
    session contains, every response that the view returns is an HTTP
    redirect (status 302): to the failure url (LOGIN_REDIRECT_URL_FAILURE,
    "/" when it is not configured) or, after a login, to the success url
    (the 'oidc_login_next' of the session when it is truthy, else
    LOGIN_REDIRECT_URL, "/" when it is not configured); it returns no other
    kind of response. It does not return a response to every request: when
    the request carries no non-empty 'error', carries 'code' and 'state',
    and the stored 'oidc_state' differs from the callback's 'state', it
    raises SuspiciousOperation. *)
Theorem callback_get_outcomes (E : Externals) (r : Request) :
  method r = "GET" ->
  let run := dispatch (OIDCAuthenticationCallbackView E) (start r) in
  let failure :=
    PStr match LOGIN_REDIRECT_URL_FAILURE (settings E) with
         | Some url => url
         | None => "/"
         end in
  let fallback :=
    PStr match LOGIN_REDIRECT_URL (settings E) with
         | Some url => url
         | None => "/"
         end in
  let success :=
    match session (request run.1) !! "oidc_login_next" with
    | Some next_url => if truthy next_url then next_url else fallback
    | None => fallback
    end in
  (forall response, run.2 = Return response ->
     status_code response = 302%Z /\
     (response = HttpResponseRedirect failure \/
      (response = HttpResponseRedirect success /\
       exists r2 u, CallLogin r2 u ∈ calls run.1))) /\
  (truthy (QueryDict_get (GET r) "error") = false ->
   QueryDict_contains (GET r) "code" = true ->
   QueryDict_contains (GET r) "state" = true ->
   forall stored, session r !! "oidc_state" = Some stored ->
     QueryDict_get (GET r) "state" <> stored ->
     run = (start (after_nonce r), Raise (SuspiciousOperation state_mismatch_msg))).
Proof.
  intros Hm run failure fallback success. unfold success, run.
  clear success run. rewrite (dispatch_callback_get E r Hm). split.
  - intros response.
    destruct (truthy (QueryDict_get (GET r) "error")) eqn:He.
    { rewrite (get_error_path E r He).
      destruct (is_authenticated r);
        [destruct (is_authenticated (auth_logout E (after_nonce r)))|];
        cbn [snd]; [discriminate| |]; intros [= <-]; split; auto. }
    destruct (QueryDict_contains (GET r) "code" && QueryDict_contains (GET r) "state")
      eqn:Hcs.
    2:{ rewrite (get_fallthrough E r He Hcs). cbn [snd].
        intros [= <-]. split; auto. }
    apply andb_prop in Hcs as [Hc Hs].
    destruct (QueryDict_contains_get _ _ Hs) as [s Hget].
    rewrite (get_code_path E r s He Hc Hget).
    destruct (session r !! "oidc_state") as [stored|] eqn:Hst.
    2:{ cbn [snd]. intros [= <-]. split; auto. }
    destruct (bool_decide (PStr s = stored)); [|cbn [snd]; discriminate].
    unfold backend_path.
    destruct (authenticate E (after_nonce r) (nonce_of r)) as [r2 [[u|]|e]];
      [destruct (is_active u)| |]; cbn [fst snd request calls];
      try discriminate; intros [= <-]; split; auto.
    right. split.
    + unfold success_url_of, py_or, import_from_settings, fallback.
      destruct (session (logged_in E r2 u) !! "oidc_login_next"); reflexivity.
    + exists r2, u. apply list_elem_of_further, list_elem_of_here.
  - intros He Hc Hs stored Hst Hne.
    destruct (QueryDict_contains_get _ _ Hs) as [s Hget].
    rewrite (get_code_path E r s He Hc Hget), Hst.
    rewrite bool_decide_eq_false_2; [reflexivity|]. congruence.
Qed.

Lemma callback_get_outcomes_witness :
  let E := DemoRequest.denied_env in
  let r := Demo.callback [("code", "good"); ("state", "s1")]
             (<["oidc_state" := PStr "s1"]> {["oidc_nonce" := PStr "n0nce"]}) None in
  (dispatch (OIDCAuthenticationCallbackView E) (start r)).2 =
    Return (HttpResponseRedirect (PStr "/welcome")) /\
  let run := dispatch (OIDCAuthenticationCallbackView E) (start r) in
  let failure :=
    PStr match LOGIN_REDIRECT_URL_FAILURE (settings E) with
         | Some url => url
         | None => "/"
         end in
  let fallback :=
    PStr match LOGIN_REDIRECT_URL (settings E) with
         | Some url => url
         | None => "/"
         end in
  let success :=
    match session (request run.1) !! "oidc_login_next" with
    | Some next_url => if truthy next_url then next_url else fallback
    | None => fallback
    end in
  (forall response, run.2 = Return response ->
     status_code response = 302%Z /\
     (response = HttpResponseRedirect failure \/
      (response = HttpResponseRedirect success /\
       exists r2 u, CallLogin r2 u ∈ calls run.1))) /\
  (truthy (QueryDict_get (GET r) "error") = false ->
   QueryDict_contains (GET r) "code" = true ->
   QueryDict_contains (GET r) "state" = true ->
   forall stored, session r !! "oidc_state" = Some stored ->
     QueryDict_get (GET r) "state" <> stored ->
     run = (start (after_nonce r), Raise (SuspiciousOperation state_mismatch_msg))).
Proof.
  intros E r. split; [reflexivity|].
  apply (callback_get_outcomes E r).
  reflexivity.
Defined.

(** ** get_next_url (C8) *)

Lemma get_next_url_run (E : Externals) (name : string) (w : World) :
  get_next_url E name w = (w, next_url_outcome E (request w) name).
Proof.
  unfold get_next_url, next_url_outcome, safe_next_url. unfold_monad.
  destruct (QueryDict_get (GET (request w)) name) as [|url|n] eqn:Hq;
    cbn [truthy negb].
  - reflexivity.
  - destruct (String.eqb url ""); cbn [negb]; [reflexivity|].
    destruct (get_host (request w)) as [host|e]; [|reflexivity].
    destruct (is_safe_url E url _ _); reflexivity.
  - exfalso. unfold QueryDict_get in Hq.
    destruct (last (getlist (GET (request w)) name)); discriminate.
Qed.

(** C8, as the claim is written, does not hold: line 121 asks the request
    for its host, and [request.get_host()] raises DisallowedHost for a Host
    header that Django does not allow. For a request with a non-empty
    'next', a relative url that [is_safe_url] accepts, [get_next_url] then
    raises instead of returning the url. *)
Lemma get_next_url_disallowed_host :
  let r := mkRequest [("next", "/dashboard")] ∅ None "GET" true
                     (Raise (ExternalError "DisallowedHost")) in
  QueryDict_get (GET r) "next" = PStr "/dashboard" /\
  (forall hosts https, is_safe_url Demo.strict "/dashboard" hosts https = true) /\
  get_next_url Demo.strict "next" (start r) =
    (start r, Raise (ExternalError "DisallowedHost")).
Proof. repeat split. Qed.

(** C8 (amended): [get_next_url] returns None when the named query
    parameter is absent or empty, without asking for the host. Otherwise,
    when [request.get_host()] returns, it returns the candidate url exactly
    when [is_safe_url] accepts it for the hosts of
    OIDC_REDIRECT_ALLOWED_HOSTS followed by the host of the request, with
    [require_https] the setting OIDC_REDIRECT_REQUIRE_HTTPS or, when that
    is not configured, whether the request is secure, and None when it does
    not; and when [request.get_host()] raises, it lets that exception
    through. In every case the request and the record of calls are left as
    they were. *)
Theorem get_next_url_safe (E : Externals) (redirect_field_name : string) (w : World) :
  let r := request w in
  let next_url := QueryDict_get (GET r) redirect_field_name in
  let configured :=
    match OIDC_REDIRECT_ALLOWED_HOSTS (settings E) with
    | Some hosts => hosts
    | None => []
    end in
  let require_https :=
    match OIDC_REDIRECT_REQUIRE_HTTPS (settings E) with
    | Some required => required
    | None => is_secure r
    end in
  (QueryDict_contains (GET r) redirect_field_name = false \/ next_url = PStr "" ->
   get_next_url E redirect_field_name w = (w, Return PNone)) /\
  (forall url host, next_url = PStr url -> url <> "" -> get_host r = Return host ->
   get_next_url E redirect_field_name w =
     (w, Return (if is_safe_url E url (configured ++ [host]) require_https
                 then PStr url else PNone))) /\
  (forall url e, next_url = PStr url -> url <> "" -> get_host r = Raise e ->
   get_next_url E redirect_field_name w = (w, Raise e)).
Proof.
  intros r next_url configured require_https.
  unfold next_url, configured, require_https. clear next_url configured require_https.
  rewrite get_next_url_run. fold r.
  unfold next_url_outcome, safe_next_url, import_from_settings.
  split; [|split].
  - intros [Hc|Hq].
    + apply QueryDict_get_none in Hc. rewrite Hc. reflexivity.
    + rewrite Hq. reflexivity.
  - intros url host Hq Hne Hh. rewrite Hq, Hh. apply String.eqb_neq in Hne.
    cbn [truthy]. rewrite Hne. reflexivity.
  - intros url e Hq Hne Hh. rewrite Hq, Hh. apply String.eqb_neq in Hne.
    cbn [truthy]. rewrite Hne. reflexivity.
Qed.

Example get_next_url_relative :
  get_next_url Demo.strict "next"
    (start (Demo.callback [("next", "/dashboard")] ∅ None)) =
    (start (Demo.callback [("next", "/dashboard")] ∅ None), Return (PStr "/dashboard")).
Proof. reflexivity. Qed.

Example get_next_url_rejected :
  (get_next_url Demo.strict "next"
     (start (Demo.callback [("next", "//evil.example/x")] ∅ None))).2 = Return PNone /\
  (get_next_url Demo.strict "next"
     (start (Demo.callback [("next", "")] ∅ None))).2 = Return PNone /\
  (get_next_url Demo.strict "next"
     (start (Demo.callback [("code", "c")] ∅ None))).2 = Return PNone.
Proof. repeat split; reflexivity. Qed.

(** ** The logout view (C9) *)

(** C9: the view lists 'get' in [http_method_names] and defines no [get]
    method, so [View.dispatch] sends a GET request to
    [http_method_not_allowed]: the response is 405 with POST as the only
    permitted method, not a redirect, and nobody is logged out. *)
Theorem logout_get_not_allowed (E : Externals) (r : Request) :
  method r = "GET" ->
  dispatch (OIDCLogoutView E) (start r) =
    (start r, Return (HttpResponseNotAllowed ["POST"])) /\
  status_code (HttpResponseNotAllowed ["POST"]) = 405%Z.
Proof.
  intros Hm. split; [|reflexivity].
  unfold dispatch. unfold_monad. cbn [request start]. rewrite Hm. reflexivity.
Qed.

Lemma logout_get_not_allowed_witness :
  dispatch (OIDCLogoutView Demo.strict)
           (start (Demo.callback [] ∅ (Some Demo.alice))) =
    (start (Demo.callback [] ∅ (Some Demo.alice)),
     Return (HttpResponseNotAllowed ["POST"])) /\
  status_code (HttpResponseNotAllowed ["POST"]) = 405%Z.
Proof.
  apply (logout_get_not_allowed Demo.strict (Demo.callback [] ∅ (Some Demo.alice))).
  reflexivity.
Defined.

(** A POST request on the logout route reaches [post]. The anonymous user
    is redirected to LOGOUT_REDIRECT_URL ("/" by default) and nothing is
    called; an authenticated user is logged out and redirected there, or to
    the url computed by the function of OIDC_OP_LOGOUT_URL_METHOD, whose
    exception, if it raises, is let through before anybody is logged out. *)
Lemma logout_post_run (E : Externals) (r : Request) :
  method r = "POST" ->
  dispatch (OIDCLogoutView E) (start r) = post E (start r) /\
  post E (start r) =
    if is_authenticated r then
      match OIDC_OP_LOGOUT_URL_METHOD (settings E) with
      | None | Some "" =>
          (mkWorld (auth_logout E r) [CallLogout r],
           Return (HttpResponseRedirect (PStr (redirect_url E))))
      | Some name =>
          match import_string E name r with
          | (r', Return url) =>
              (mkWorld (auth_logout E r') [CallImported name r; CallLogout r'],
               Return (HttpResponseRedirect (PStr url)))
          | (r', Raise e) => (mkWorld r' [CallImported name r], Raise e)
          end
      end
    else (start r, Return (HttpResponseRedirect (PStr (redirect_url E)))).
Proof.
  intros Hm. split.
  - unfold dispatch. unfold_monad. cbn [request start]. rewrite Hm. reflexivity.
  - unfold post, import_from_settings. unfold_monad. cbn [request start calls].
    destruct (is_authenticated r); [|reflexivity].
    destruct (OIDC_OP_LOGOUT_URL_METHOD (settings E)) as [[|c name]|];
      cbn [String.eqb negb]; try reflexivity.
    unfold start. cbn [request calls app].
    destruct (import_string E (String c name) r) as [r' [url|e]]; reflexivity.
Qed.

(** ** An empty 'error' parameter (C10) *)

(** C10: for every callback request whose 'error' query parameter is
    present and equal to the empty string, the error branch is not taken
    and auth.logout is not called: the handler evaluates the code branch
    when 'code' and 'state' are both present, and otherwise falls through
    to the failure redirect. *)
Theorem callback_empty_error (E : Externals) (r : Request) :
  QueryDict_get (GET r) "error" = PStr "" ->
  QueryDict_contains (GET r) "error" = true /\
  (forall c, c ∈ calls (get E (start r)).1 -> is_logout_call c = false) /\
  get E (start r) =
    if QueryDict_contains (GET r) "code" && QueryDict_contains (GET r) "state"
    then match code_branch E (nonce_of r) (start (after_nonce r)) with
         | (w, Return (Some response)) => (w, Return response)
         | (w, Return None) => (w, Return (HttpResponseRedirect (failure_url E)))
         | (w, Raise e) => (w, Raise e)
         end
    else (start (after_nonce r), Return (HttpResponseRedirect (failure_url E))).
Proof.
  intros Hq.
  assert (He : truthy (QueryDict_get (GET r) "error") = false) by (rewrite Hq; reflexivity).
  split; [apply (QueryDict_get_str _ _ _ Hq)|]. split.
  - destruct (QueryDict_contains (GET r) "code" && QueryDict_contains (GET r) "state")
      eqn:Hcs.
    2:{ rewrite (get_fallthrough E r He Hcs). intros c Hin. inversion Hin. }
    apply andb_prop in Hcs as [Hc Hs].
    destruct (QueryDict_contains_get _ _ Hs) as [s Hget].
    rewrite (get_code_path E r s He Hc Hget).
    destruct (session r !! "oidc_state") as [stored|]; [|intros c Hin; inversion Hin].
    destruct (bool_decide (PStr s = stored)); [|intros c Hin; inversion Hin].
    unfold backend_path.
    destruct (authenticate E (after_nonce r) (nonce_of r)) as [r2 [[u|]|e]];
      [destruct (is_active u)| |]; cbn [fst calls]; intros c Hin;
      repeat (apply elem_of_cons in Hin as [->|Hin]; [reflexivity|]);
      inversion Hin.
  - rewrite get_start, He.
    destruct (QueryDict_contains (GET r) "code" && QueryDict_contains (GET r) "state");
      reflexivity.
Qed.

Lemma callback_empty_error_witness :
  let E := Demo.strict in
  let r := Demo.callback [("error", ""); ("code", "good"); ("state", "s1")]
             (<["oidc_state" := PStr "s1"]> {["oidc_nonce" := PStr "n0nce"]})
             (Some Demo.alice) in
  QueryDict_contains (GET r) "error" = true /\
  (forall c, c ∈ calls (get E (start r)).1 -> is_logout_call c = false) /\
  get E (start r) =
    if QueryDict_contains (GET r) "code" && QueryDict_contains (GET r) "state"
    then match code_branch E (nonce_of r) (start (after_nonce r)) with
         | (w, Return (Some response)) => (w, Return response)
         | (w, Return None) => (w, Return (HttpResponseRedirect (failure_url E)))
         | (w, Raise e) => (w, Raise e)
         end
    else (start (after_nonce r), Return (HttpResponseRedirect (failure_url E))).
Proof.
  intros E r. apply (callback_empty_error E r). reflexivity.
Defined.

(** * Further properties of the callback view *)

(** auth.login is called only after the backend returned an active
    principal, past the state checks. *)
Lemma login_call_inv (E : Externals) (r r2 : Request) (u : User) :
  CallLogin r2 u ∈ calls (get E (start r)).1 ->
  is_active u = true /\
  authenticate E (after_nonce r) (nonce_of r) = (r2, Return (Some u)) /\
  truthy (QueryDict_get (GET r) "error") = false /\
  QueryDict_contains (GET r) "code" = true /\
  QueryDict_contains (GET r) "state" = true /\
  session r !! "oidc_state" = Some (QueryDict_get (GET r) "state") /\
  get E (start r) = backend_path E (after_nonce r) (nonce_of r).
Proof.
  intros Hin.
  destruct (truthy (QueryDict_get (GET r) "error")) eqn:He.
  { exfalso. rewrite (get_error_path E r He) in Hin.
    destruct (is_authenticated r); cbn [fst calls start] in Hin.
    - apply list_elem_of_singleton in Hin. discriminate.
    - inversion Hin. }
  destruct (QueryDict_contains (GET r) "code" && QueryDict_contains (GET r) "state") eqn:Hcs.
  2:{ exfalso. rewrite (get_fallthrough E r He Hcs) in Hin. inversion Hin. }
  apply andb_prop in Hcs as [Hc Hs].
  destruct (QueryDict_contains_get _ _ Hs) as [s Hget].
  rewrite (get_code_path E r s He Hc Hget) in Hin |- *. rewrite Hget.
  destruct (session r !! "oidc_state") as [stored|]; [|inversion Hin].
  destruct (bool_decide (PStr s = stored)) eqn:Heq; [|inversion Hin].
  apply bool_decide_eq_true_1 in Heq. subst stored.
  unfold backend_path in Hin.
  destruct (authenticate E (after_nonce r) (nonce_of r)) as [r2' [[u'|]|e]].
  - destruct (is_active u') eqn:Hact; cbn [fst calls] in Hin.
    + apply elem_of_cons in Hin as [Hin|Hin]; [discriminate|].
      apply list_elem_of_singleton in Hin. injection Hin as -> ->.
      repeat split; (reflexivity || assumption).
    + apply list_elem_of_singleton in Hin. discriminate.
  - apply list_elem_of_singleton in Hin. discriminate.
  - apply list_elem_of_singleton in Hin. discriminate.
Qed.

(** X1: the callback calls auth.login only for an active principal that the
    backend returned in this very invocation, and only when the request
    carries no non-empty 'error', carries 'code' and 'state', and the
    callback's 'state' is the stored 'oidc_state'. *)
Theorem callback_login_only_after_backend
    (E : Externals) (r r2 : Request) (u : User) :
  CallLogin r2 u ∈ calls (get E (start r)).1 ->
  is_active u = true /\
  authenticate E (after_nonce r) (nonce_of r) = (r2, Return (Some u)) /\
  truthy (QueryDict_get (GET r) "error") = false /\
  QueryDict_contains (GET r) "code" = true /\
  QueryDict_contains (GET r) "state" = true /\
  session r !! "oidc_state" = Some (QueryDict_get (GET r) "state").
Proof.
  intros Hin.
  destruct (login_call_inv E r r2 u Hin) as (H1 & H2 & H3 & H4 & H5 & H6 & _).
  auto 10.
Qed.

Lemma callback_login_only_after_backend_witness :
  let E := Demo.strict in
  let r := Demo.callback [("code", "good"); ("state", "s1")]
             (<["oidc_state" := PStr "s1"]> {["oidc_nonce" := PStr "n0nce"]}) None in
  is_active Demo.alice = true /\
  authenticate E (after_nonce r) (nonce_of r) = (after_nonce r, Return (Some Demo.alice)) /\
  truthy (QueryDict_get (GET r) "error") = false /\
  QueryDict_contains (GET r) "code" = true /\
  QueryDict_contains (GET r) "state" = true /\
  session r !! "oidc_state" = Some (QueryDict_get (GET r) "state").
Proof.
  intros E r.
  apply (callback_login_only_after_backend E r (after_nonce r) Demo.alice).
  vm_compute. apply list_elem_of_further, list_elem_of_here.
Defined.

(** X2: the backend is called only past the state checks (no non-empty
    'error', 'code' and 'state' present, the callback's 'state' equal to the
    stored one); it is handed the nonce that the session held when the
    callback arrived, and a request whose session no longer holds that
    nonce when it was truthy. *)
Theorem callback_backend_call_arguments
    (E : Externals) (r r1 : Request) (n : pyval) :
  CallAuthenticate r1 n ∈ calls (get E (start r)).1 ->
  n = default PNone (session r !! "oidc_nonce") /\
  GET r1 = GET r /\ user r1 = user r /\
  (truthy n = true -> session r1 = delete "oidc_nonce" (session r)) /\
  (truthy n = false -> session r1 = session r) /\
  truthy (QueryDict_get (GET r) "error") = false /\
  QueryDict_contains (GET r) "code" = true /\
  session r !! "oidc_state" = Some (QueryDict_get (GET r) "state").
Proof.
  intros Hin.
  destruct (backend_call_inv E r r1 n Hin) as (-> & -> & He & Hc & Hst & _).
  split; [reflexivity|]. split; [apply after_nonce_GET|].
  split; [apply after_nonce_user|].
  split; [|split].
  - intros Ht. unfold after_nonce. rewrite Ht. reflexivity.
  - intros Ht. rewrite after_nonce_falsy by exact Ht. reflexivity.
  - auto.
Qed.

Lemma callback_backend_call_arguments_witness :
  let E := Demo.strict in
  let r := Demo.callback [("code", "good"); ("state", "s1")]
             (<["oidc_state" := PStr "s1"]> {["oidc_nonce" := PStr "n0nce"]}) None in
  let r1 := after_nonce r in
  let n := PStr "n0nce" in
  n = default PNone (session r !! "oidc_nonce") /\
  GET r1 = GET r /\ user r1 = user r /\
  (truthy n = true -> session r1 = delete "oidc_nonce" (session r)) /\
  (truthy n = false -> session r1 = session r) /\
  truthy (QueryDict_get (GET r) "error") = false /\
  QueryDict_contains (GET r) "code" = true /\
  session r !! "oidc_state" = Some (QueryDict_get (GET r) "state").
Proof.
  intros E r r1 n.
  apply (callback_backend_call_arguments E r r1 n).
  vm_compute. apply list_elem_of_here.
Defined.

(** X3: a non-empty 'error' parameter has priority over everything else in
    the query: neither the backend nor auth.login is called, whatever
    'code', 'state' and the session are. The handler then either returns
    the redirect to the failure url, with the anonymous user in the
    request, or, when auth.logout left an authenticated user, fails the
    assertion of line 79. *)
Theorem callback_error_never_authenticates (E : Externals) (r : Request) :
  truthy (QueryDict_get (GET r) "error") = true ->
  (forall c, c ∈ calls (get E (start r)).1 ->
     is_backend_call c = false /\ is_login_call c = false) /\
  (((get E (start r)).2 = Return (HttpResponseRedirect (failure_url E)) /\
    user (request (get E (start r)).1) = None) \/
   ((get E (start r)).2 = Raise AssertionError /\
    is_authenticated (request (get E (start r)).1) = true)).
Proof.
  intros He. rewrite (get_error_path E r He).
  destruct (is_authenticated r) eqn:Ha.
  - destruct (is_authenticated (auth_logout E (after_nonce r))) eqn:Hout;
      cbn [fst snd calls request]; split.
    + intros c Hin. apply list_elem_of_singleton in Hin. subst c. split; reflexivity.
    + right. split; [reflexivity | exact Hout].
    + intros c Hin. apply list_elem_of_singleton in Hin. subst c. split; reflexivity.
    + left. split; [reflexivity|]. unfold is_authenticated in Hout.
      destruct (user (auth_logout E (after_nonce r))); [discriminate | reflexivity].
  - cbn [fst snd calls request start]. split.
    + intros c Hin. inversion Hin.
    + left. split; [reflexivity|]. rewrite after_nonce_user.
      unfold is_authenticated in Ha. destruct (user r); [discriminate | reflexivity].
Qed.

Lemma callback_error_never_authenticates_witness :
  let E := Demo.strict in
  let r := Demo.callback [("error", "access_denied"); ("code", "good"); ("state", "s1")]
             (<["oidc_state" := PStr "s1"]> {["oidc_nonce" := PStr "n0nce"]})
             (Some Demo.alice) in
  (forall c, c ∈ calls (get E (start r)).1 ->
     is_backend_call c = false /\ is_login_call c = false) /\
  (((get E (start r)).2 = Return (HttpResponseRedirect (failure_url E)) /\
    user (request (get E (start r)).1) = None) \/
   ((get E (start r)).2 = Raise AssertionError /\
    is_authenticated (request (get E (start r)).1) = true)).
Proof.
  intros E r. apply (callback_error_never_authenticates E r). reflexivity.
Defined.

(** X4: a callback without a non-empty 'error' that lacks 'code' or lacks
    'state' never reaches the state check: whatever 'oidc_state' the
    session holds, nothing is raised and nothing is called; the nonce is
    consumed and the response is the redirect to the failure url. *)
Theorem callback_incomplete_query_fails (E : Externals) (r : Request) :
  truthy (QueryDict_get (GET r) "error") = false ->
  QueryDict_contains (GET r) "code" = false \/ QueryDict_contains (GET r) "state" = false ->
  get E (start r) =
    (start (after_nonce r), Return (HttpResponseRedirect (failure_url E))) /\
  session (after_nonce r) !! "oidc_state" = session r !! "oidc_state".
Proof.
  intros He Hmiss. split.
  - apply (get_fallthrough E r He).
    destruct Hmiss as [H|H]; rewrite H; [reflexivity | apply andb_false_r].
  - apply after_nonce_other. discriminate.
Qed.

Lemma callback_incomplete_query_fails_witness :
  let E := Demo.strict in
  let r := Demo.callback [("state", "forged")]
             (<["oidc_state" := PStr "s1"]> {["oidc_nonce" := PStr "n0nce"]}) None in
  get E (start r) =
    (start (after_nonce r), Return (HttpResponseRedirect (failure_url E))) /\
  session (after_nonce r) !! "oidc_state" = session r !! "oidc_state".
Proof.
  intros E r. apply (callback_incomplete_query_fails E r).
  - reflexivity.
  - left. reflexivity.
Defined.

(** X5: past the state checks, unless the backend returns an active
    principal the callback logs nobody in and writes nothing to the
    session: the request is left as the backend left it, an exception of
    the backend is let through as it is, and a missing or inactive
    principal is answered by the redirect to the failure url. *)
Theorem callback_rejects_without_active_principal
    (E : Externals) (r : Request) (s : string) (r2 : Request)
    (o : outcome (option User)) :
  truthy (QueryDict_get (GET r) "error") = false ->
  QueryDict_contains (GET r) "code" = true ->
  QueryDict_get (GET r) "state" = PStr s ->
  session r !! "oidc_state" = Some (PStr s) ->
  authenticate E (after_nonce r) (nonce_of r) = (r2, o) ->
  (forall u, o = Return (Some u) -> is_active u = false) ->
  get E (start r) =
    (mkWorld r2 [CallAuthenticate (after_nonce r) (nonce_of r)],
     match o with
     | Return _ => Return (HttpResponseRedirect (failure_url E))
     | Raise e => Raise e
     end).
Proof.
  intros He Hc Hs Hst Hb Hinactive.
  rewrite (get_code_path E r s He Hc Hs), Hst.
  rewrite bool_decide_eq_true_2 by reflexivity.
  unfold backend_path. rewrite Hb.
  destruct o as [[u|]|e]; try reflexivity.
  rewrite (Hinactive u eq_refl). reflexivity.
Qed.

Lemma callback_rejects_without_active_principal_witness :
  let E := Demo.strict in
  let r := Demo.callback [("code", "stolen"); ("state", "s1")]
             (<["oidc_state" := PStr "s1"]> {["oidc_nonce" := PStr "n0nce"]}) None in
  get E (start r) =
    (mkWorld (after_nonce r) [CallAuthenticate (after_nonce r) (nonce_of r)],
     match @Return (option User) None with
     | Return _ => Return (HttpResponseRedirect (failure_url E))
     | Raise e => Raise e
     end).
Proof.
  intros E r.
  apply (callback_rejects_without_active_principal E r "s1" (after_nonce r) (Return None)).
  - reflexivity.
  - reflexivity.
  - reflexivity.
  - reflexivity.
  - reflexivity.
  - intros u Hu. discriminate.
Defined.

(** X6: the callback itself writes two session keys only: it may delete
    'oidc_nonce' and, on success, it sets 'oidc_id_token_expiration'. Every
    other key, 'oidc_state' and 'oidc_login_next' among them, is at the end
    what it was on arrival, provided the backend and auth.login leave it
    alone and the error branch does not log a user out. *)
Theorem callback_keeps_other_session_keys
    (E : Externals) (r : Request) (key : string) :
  externals_keep E key ->
  key <> "oidc_nonce" ->
  key <> "oidc_id_token_expiration" ->
  truthy (QueryDict_get (GET r) "error") && is_authenticated r = false ->
  session (request (get E (start r)).1) !! key = session r !! key.
Proof.
  intros [Kb Kl] Hn Hx Herr.
  assert (H1 : session (after_nonce r) !! key = session r !! key)
    by (apply after_nonce_other; exact Hn).
  destruct (truthy (QueryDict_get (GET r) "error")) eqn:He.
  { cbn [andb] in Herr. rewrite (get_error_path E r He), Herr. exact H1. }
  destruct (QueryDict_contains (GET r) "code" && QueryDict_contains (GET r) "state") eqn:Hcs.
  2:{ rewrite (get_fallthrough E r He Hcs). exact H1. }
  apply andb_prop in Hcs as [Hc Hs].
  destruct (QueryDict_contains_get _ _ Hs) as [s Hget].
  rewrite (get_code_path E r s He Hc Hget).
  destruct (session r !! "oidc_state") as [stored|]; [|exact H1].
  destruct (bool_decide (PStr s = stored)); [|exact H1].
  unfold backend_path.
  pose proof (Kb (after_nonce r) (nonce_of r)) as Hb.
  destruct (authenticate E (after_nonce r) (nonce_of r)) as [r2 [[u|]|e]];
    cbn [fst] in Hb; cbn [fst request]; try (rewrite Hb; exact H1).
  destruct (is_active u); cbn [fst request]; [|rewrite Hb; exact H1].
  unfold logged_in. cbn [session with_session].
  rewrite lookup_insert_ne by congruence. rewrite Kl, Hb. exact H1.
Qed.

Lemma callback_keeps_other_session_keys_witness :
  let E := Demo.strict in
  let r := Demo.callback [("code", "good"); ("state", "s1")]
             (<["oidc_login_next" := PStr "/dashboard"]>
                (<["oidc_state" := PStr "s1"]> {["oidc_nonce" := PStr "n0nce"]})) None in
  session (request (get E (start r)).1) !! "oidc_login_next" =
    session r !! "oidc_login_next".
Proof.
  intros E r. apply (callback_keeps_other_session_keys E r "oidc_login_next").
  - apply demo_keeps. intros r0 n. reflexivity.
  - discriminate.
  - discriminate.
  - reflexivity.
Defined.

(** X7: the callback view answers GET only. A request with any other verb
    is answered 405 with GET as the only permitted method, and the handler
    does not run: the session, its nonce included, is untouched. *)
Theorem callback_other_verbs_not_allowed (E : Externals) (r : Request) :
  lower (method r) <> "get" ->
  dispatch (OIDCAuthenticationCallbackView E) (start r) =
    (start r, Return (HttpResponseNotAllowed ["GET"])).
Proof.
  intros Hm. unfold dispatch. unfold_monad. cbn [request start].
  cbn [http_method_names OIDCAuthenticationCallbackView].
  rewrite bool_decide_eq_false_2; [reflexivity|].
  intros Hin. apply list_elem_of_singleton in Hin. contradiction.
Qed.

Lemma callback_other_verbs_not_allowed_witness :
  let r := mkRequest [("code", "good"); ("state", "s1")]
             (<["oidc_state" := PStr "s1"]> {["oidc_nonce" := PStr "n0nce"]})
             None "POST" true (Return "rp.example") in
  dispatch (OIDCAuthenticationCallbackView Demo.strict) (start r) =
    (start r, Return (HttpResponseNotAllowed ["GET"])).
Proof.
  intros r. apply (callback_other_verbs_not_allowed Demo.strict r).
  discriminate.
Defined.

(** * Further properties of the logout view *)

(** X8: a POST on the logout route by an anonymous user changes nothing and
    calls nothing, not even the function of OIDC_OP_LOGOUT_URL_METHOD: the
    response is the redirect to LOGOUT_REDIRECT_URL, "/" when it is not
    configured. *)
Theorem logout_post_anonymous (E : Externals) (r : Request) :
  method r = "POST" ->
  user r = None ->
  dispatch (OIDCLogoutView E) (start r) =
    (start r,
     Return (HttpResponseRedirect
               (PStr match LOGOUT_REDIRECT_URL (settings E) with
                     | Some url => url
                     | None => "/"
                     end))).
Proof.
  intros Hm Hu. destruct (logout_post_run E r Hm) as [-> ->].
  unfold is_authenticated. rewrite Hu. reflexivity.
Qed.

Lemma logout_post_anonymous_witness :
  let E := Demo.strict in
  let r := mkRequest [] {["oidc_state" := PStr "s1"]} None "POST" true (Return "rp.example") in
  dispatch (OIDCLogoutView E) (start r) =
    (start r,
     Return (HttpResponseRedirect
               (PStr match LOGOUT_REDIRECT_URL (settings E) with
                     | Some url => url
                     | None => "/"
                     end))).
Proof.
  intros E r. apply (logout_post_anonymous E r); reflexivity.
Defined.

(** X9: when the function of OIDC_OP_LOGOUT_URL_METHOD raises, the POST
    raises the same exception and auth.logout is not called: the function
    runs first, and the local session outlives its failure. *)
Theorem logout_post_builder_raises
    (E : Externals) (r : Request) (name : string) (r' : Request) (e : Exn) :
  method r = "POST" ->
  is_authenticated r = true ->
  OIDC_OP_LOGOUT_URL_METHOD (settings E) = Some name ->
  name <> "" ->
  import_string E name r = (r', Raise e) ->
  dispatch (OIDCLogoutView E) (start r) = (mkWorld r' [CallImported name r], Raise e).
Proof.
  intros Hm Ha Hname Hne Hi. destruct (logout_post_run E r Hm) as [-> ->].
  rewrite Ha, Hname. destruct name as [|c name]; [contradiction|].
  rewrite Hi. reflexivity.
Qed.

Lemma logout_post_builder_raises_witness :
  dispatch (OIDCLogoutView DemoRequest.broken_op_logout_env)
           (start (DemoRequest.leaving (Some Demo.alice))) =
    (mkWorld (DemoRequest.leaving (Some Demo.alice))
             [CallImported "rp.views.op_logout" (DemoRequest.leaving (Some Demo.alice))],
     Raise (ExternalError "ImportError")).
Proof.
  apply (logout_post_builder_raises DemoRequest.broken_op_logout_env
           (DemoRequest.leaving (Some Demo.alice)) "rp.views.op_logout"
           (DemoRequest.leaving (Some Demo.alice)) (ExternalError "ImportError")).
  - reflexivity.
  - reflexivity.
  - reflexivity.
  - discriminate.
  - reflexivity.
Defined.

(** X10: a POST on the logout route by an authenticated user that returns
    a response has called auth.logout exactly once, as its last call, and
    answers with a redirect: to LOGOUT_REDIRECT_URL when
    OIDC_OP_LOGOUT_URL_METHOD is not configured or empty, and otherwise to
    the url that the configured function returned, which was called before
    auth.logout, on the request as it arrived; auth.logout then works on
    the request that function left. *)
Theorem logout_post_authenticated
    (E : Externals) (r : Request) (w : World) (response : Response) :
  method r = "POST" ->
  is_authenticated r = true ->
  dispatch (OIDCLogoutView E) (start r) = (w, Return response) ->
  exists r' url,
    request w = auth_logout E r' /\
    response = HttpResponseRedirect (PStr url) /\
    status_code response = 302%Z /\
    ((r' = r /\ calls w = [CallLogout r] /\
      url = import_from_settings (LOGOUT_REDIRECT_URL (settings E)) "/" /\
      import_from_settings (OIDC_OP_LOGOUT_URL_METHOD (settings E)) "" = "") \/
     (exists name,
        OIDC_OP_LOGOUT_URL_METHOD (settings E) = Some name /\ name <> "" /\
        import_string E name r = (r', Return url) /\
        calls w = [CallImported name r; CallLogout r'])).
Proof.
  intros Hm Ha. destruct (logout_post_run E r Hm) as [-> ->]. rewrite Ha.
  destruct (OIDC_OP_LOGOUT_URL_METHOD (settings E)) as [[|c name]|] eqn:Hname.
  - intros [= <- <-]. exists r, (redirect_url E). cbn [request calls].
    repeat split. left. repeat split.
  - destruct (import_string E (String c name) r) as [r' [url|e]] eqn:Hi;
      [|discriminate].
    intros [= <- <-]. exists r', url. cbn [request calls].
    repeat split. right. exists (String c name).
    repeat split; [discriminate | exact Hi].
  - intros [= <- <-]. exists r, (redirect_url E). cbn [request calls].
    repeat split. left. repeat split.
Qed.

Lemma logout_post_authenticated_witness :
  let E := DemoRequest.op_logout_env in
  let r := DemoRequest.leaving (Some Demo.alice) in
  exists r' url,
    request (mkWorld (auth_logout E r) [CallImported "rp.views.op_logout" r; CallLogout r])
      = auth_logout E r' /\
    HttpResponseRedirect (PStr "https://op.example/logout") = HttpResponseRedirect (PStr url) /\
    status_code (HttpResponseRedirect (PStr "https://op.example/logout")) = 302%Z /\
    ((r' = r /\
      calls (mkWorld (auth_logout E r) [CallImported "rp.views.op_logout" r; CallLogout r])
        = [CallLogout r] /\
      url = import_from_settings (LOGOUT_REDIRECT_URL (settings E)) "/" /\
      import_from_settings (OIDC_OP_LOGOUT_URL_METHOD (settings E)) "" = "") \/
     (exists name,
        OIDC_OP_LOGOUT_URL_METHOD (settings E) = Some name /\ name <> "" /\
        import_string E name r = (r', Return url) /\
        calls (mkWorld (auth_logout E r) [CallImported "rp.views.op_logout" r; CallLogout r])
          = [CallImported name r; CallLogout r'])).
Proof.
  intros E r.
  apply (logout_post_authenticated E r
           (mkWorld (auth_logout E r) [CallImported "rp.views.op_logout" r; CallLogout r])
           (HttpResponseRedirect (PStr "https://op.example/logout"))).
  - reflexivity.
  - reflexivity.
  - reflexivity.
Defined.

(** * Properties of the request view *)

Lemma dict_get_setitem (d : list (string * string)) (k v k' : string) :
  dict_get (dict_setitem d k v) k' =
    if String.eqb k k' then Some v else dict_get d k'.
Proof.
  induction d as [|[k0 v0] d IH]; cbn [dict_setitem dict_get].
  - reflexivity.
  - destruct (String.eqb k0 k) eqn:H0; cbn [dict_get].
    + apply String.eqb_eq in H0. subst k0.
      destruct (String.eqb k k'); reflexivity.
    + destruct (String.eqb k0 k') eqn:H1.
      * apply String.eqb_eq in H1. subst k0.
        rewrite String.eqb_sym, H0. reflexivity.
      * exact IH.
Qed.

Lemma dict_get_update (other d : list (string * string)) (k : string) :
  dict_get (dict_update d other) k =
    match dict_get (rev other) k with
    | Some v => Some v
    | None => dict_get d k
    end.
Proof.
  revert d. induction other as [|[k0 v0] other IH]; intros d.
  - reflexivity.
  - unfold dict_update in *. cbn [fold_left fst snd rev]. rewrite IH.
    assert (Happ : forall l, dict_get (l ++ [(k0, v0)]) k =
              match dict_get l k with
              | Some v => Some v
              | None => if String.eqb k0 k then Some v0 else None
              end).
    { induction l as [|[k1 v1] l IHl]; cbn [app dict_get]; [reflexivity|].
      destruct (String.eqb k1 k); [reflexivity | exact IHl]. }
    rewrite Happ, dict_get_setitem.
    destruct (dict_get (rev other) k); [reflexivity|].
    destruct (String.eqb k0 k); reflexivity.
Qed.

Lemma next_url_outcome_session (E : Externals) (r : Request)
    (s : gmap string pyval) (name : string) :
  next_url_outcome E (with_session r s) name = next_url_outcome E r name.
Proof. reflexivity. Qed.

Lemma next_url_outcome_return (E : Externals) (r : Request) (name : string) (v : pyval) :
  next_url_outcome E r name = Return v -> v = safe_next_url E r name.
Proof.
  unfold next_url_outcome, safe_next_url.
  destruct (QueryDict_get (GET r) name) as [|url|n]; cbn [truthy].
  - intros [= <-]. reflexivity.
  - destruct (String.eqb url ""); cbn [negb].
    + intros [= <-]. reflexivity.
    + destruct (get_host r); [intros [= <-]; reflexivity | discriminate].
  - destruct (negb _); [destruct (get_host r)|]; intros [= <-] || discriminate;
      reflexivity.
Qed.

Lemma request_view_get_inv (C : Collaborators) (E : Externals)
    (self : string * string) (r : Request) :
  (exists e, RequestView.get C E self (start r) = (start r, Raise e)) \/
  (exists size field name scope path extra nonce,
     RequestView.resolve C "OIDC_STATE_SIZE" (OIDC_STATE_SIZE (view_settings C))
       (published_STATE_SIZE (get_from_op_metadata C)) (Some 32%Z) = Return size /\
     RequestView.resolve C "OIDC_REDIRECT_FIELD_NAME"
       (OIDC_REDIRECT_FIELD_NAME (view_settings C))
       (published_REDIRECT_FIELD_NAME (get_from_op_metadata C)) (Some "next") = Return field /\
     RequestView.resolve C "OIDC_AUTHENTICATION_CALLBACK_URL"
       (OIDC_AUTHENTICATION_CALLBACK_URL (view_settings C))
       (published_AUTHENTICATION_CALLBACK_URL (get_from_op_metadata C))
       (Some "oidc_authentication_callback") = Return name /\
     RequestView.resolve C "OIDC_RP_SCOPES" (OIDC_RP_SCOPES (view_settings C))
       (published_RP_SCOPES (get_from_op_metadata C)) (Some "openid email") = Return scope /\
     reverse C name = Return path /\
     RequestView.resolve C "OIDC_AUTH_REQUEST_EXTRA_PARAMS"
       (OIDC_AUTH_REQUEST_EXTRA_PARAMS (view_settings C))
       (published_AUTH_REQUEST_EXTRA_PARAMS (get_from_op_metadata C)) (Some []) = Return extra /\
     ((nonce = None /\
       RequestView.resolve C "OIDC_USE_NONCE" (OIDC_USE_NONCE (view_settings C))
         (published_USE_NONCE (get_from_op_metadata C)) (Some true) = Return false) \/
      (exists nonce_size,
         RequestView.resolve C "OIDC_USE_NONCE" (OIDC_USE_NONCE (view_settings C))
           (published_USE_NONCE (get_from_op_metadata C)) (Some true) = Return true /\
         RequestView.resolve C "OIDC_NONCE_SIZE" (OIDC_NONCE_SIZE (view_settings C))
           (published_NONCE_SIZE (get_from_op_metadata C)) (Some 32%Z) = Return nonce_size /\
         nonce = Some (get_random_string C 1 nonce_size))) /\
     ((next_url_outcome E r field = Return (safe_next_url E r field) /\
       RequestView.get C E self (start r) =
         (mkWorld (with_session r
                     (issued_session (session r) (get_random_string C 0 size) nonce
                        (safe_next_url E r field))) [],
          Return (HttpResponseRedirect
                    (PStr (String.append self.1
                             (String.append "?"
                                (urlencode C
                                   (authorization_params scope self.2 (absolutify C r path)
                                      (get_random_string C 0 size) extra nonce)))))))) \/
      (exists e,
         next_url_outcome E r field = Raise e /\
         RequestView.get C E self (start r) =
           (mkWorld (with_session r
                       (<["oidc_state" := PStr (get_random_string C 0 size)]>
                          (match nonce with
                           | Some n => <["oidc_nonce" := PStr n]> (session r)
                           | None => session r
                           end))) [],
            Raise e)))).
Proof.
  unfold RequestView.get, RequestView.get_extra_params, RequestView.get_settings.
  unfold_monad. cbn [request start calls].
  destruct (RequestView.resolve C "OIDC_STATE_SIZE" _ _ _) as [size|e] eqn:H1;
    [|left; eauto].
  destruct (RequestView.resolve C "OIDC_REDIRECT_FIELD_NAME" _ _ _) as [field|e] eqn:H2;
    [|left; eauto].
  destruct (RequestView.resolve C "OIDC_AUTHENTICATION_CALLBACK_URL" _ _ _)
    as [name|e] eqn:H3; [|left; eauto].
  destruct (RequestView.resolve C "OIDC_RP_SCOPES" _ _ _) as [scope|e] eqn:H4;
    [|left; eauto].
  destruct (reverse C name) as [path|e] eqn:H5; [|left; eauto].
  destruct (RequestView.resolve C "OIDC_AUTH_REQUEST_EXTRA_PARAMS" _ _ _)
    as [extra|e] eqn:H6; [|left; eauto].
  destruct (RequestView.resolve C "OIDC_USE_NONCE" _ _ _) as [[|]|e] eqn:H7;
    [| |left; eauto].
  - destruct (RequestView.resolve C "OIDC_NONCE_SIZE" _ _ _) as [nonce_size|e] eqn:H8;
      [|left; eauto].
    right. exists size, field, name, scope, path, extra,
      (Some (get_random_string C 1 nonce_size)).
    repeat (split; [first [reflexivity | assumption]|]). split; [right; eauto|].
    unfold start. cbn [request calls]. rewrite get_next_url_run. cbn [request].
    rewrite !next_url_outcome_session.
    destruct (next_url_outcome E r field) as [v|e] eqn:Hn.
    + apply next_url_outcome_return in Hn. subst v. left. split; reflexivity.
    + right. exists e. split; reflexivity.
  - right. exists size, field, name, scope, path, extra, None.
    repeat (split; [first [reflexivity | assumption]|]). split; [left; eauto|].
    unfold start. cbn [request calls]. rewrite get_next_url_run. cbn [request].
    rewrite !next_url_outcome_session.
    destruct (next_url_outcome E r field) as [v|e] eqn:Hn.
    + apply next_url_outcome_return in Hn. subst v. left. split; reflexivity.
    + right. exists e. split; reflexivity.
Qed.

Lemma issued_session_other (s : gmap string pyval) (state : string)
    (nonce : option string) (next_url : pyval) (key : string) :
  key <> "oidc_nonce" -> key <> "oidc_state" -> key <> "oidc_login_next" ->
  issued_session s state nonce next_url !! key = s !! key.
Proof.
  intros Hn Hs Hl. unfold issued_session.
  rewrite !lookup_insert_ne by congruence.
  destruct nonce; [rewrite lookup_insert_ne by congruence|]; reflexivity.
Qed.

Lemma issued_session_state (s : gmap string pyval) (state : string)
    (nonce : option string) (next_url : pyval) :
  issued_session s state nonce next_url !! "oidc_state" = Some (PStr state).
Proof.
  unfold issued_session. rewrite lookup_insert_ne by discriminate.
  apply lookup_insert_eq.
Qed.

Lemma issued_session_next (s : gmap string pyval) (state : string)
    (nonce : option string) (next_url : pyval) :
  issued_session s state nonce next_url !! "oidc_login_next" = Some next_url.
Proof. unfold issued_session. apply lookup_insert_eq. Qed.

Lemma issued_session_nonce (s : gmap string pyval) (state : string)
    (nonce : option string) (next_url : pyval) :
  issued_session s state nonce next_url !! "oidc_nonce" =
    match nonce with
    | Some n => Some (PStr n)
    | None => s !! "oidc_nonce"
    end.
Proof.
  unfold issued_session. rewrite !lookup_insert_ne by discriminate.
  destruct nonce; [apply lookup_insert_eq | reflexivity].
Qed.

(** X11: the request view writes the session keys 'oidc_nonce',
    'oidc_state' and 'oidc_login_next' and nothing else: every other session
    key, the user and the query are left as they were, and none of the
    authentication collaborators is called, whether the view returns or
    raises. *)
Theorem request_view_frame
    (C : Collaborators) (E : Externals) (self : string * string) (r : Request)
    (key : string) :
  key <> "oidc_nonce" -> key <> "oidc_state" -> key <> "oidc_login_next" ->
  session (request (RequestView.get C E self (start r)).1) !! key = session r !! key /\
  user (request (RequestView.get C E self (start r)).1) = user r /\
  GET (request (RequestView.get C E self (start r)).1) = GET r /\
  calls (RequestView.get C E self (start r)).1 = [].
Proof.
  intros Hn Hs Hl.
  destruct (request_view_get_inv C E self r) as [[e ->]|H].
  - repeat split.
  - destruct H as (size & field & name & scope & path & extra & nonce & H).
    destruct H as (_ & _ & _ & _ & _ & _ & _ & [[_ ->]|[e [_ ->]]]);
      cbn [fst request calls session with_session user GET].
    + split; [apply issued_session_other; assumption|]. repeat split.
    + split; [|repeat split].
      rewrite lookup_insert_ne by congruence.
      destruct nonce; [rewrite lookup_insert_ne by congruence|]; reflexivity.
Qed.

Lemma request_view_frame_witness :
  let C := DemoRequest.collaborators in
  let E := Demo.strict in
  let self := ("https://op.example/authorize", "rp-client") in
  let r := DemoRequest.visit [("next", "/dashboard")] {["cart" := PStr "3 items"]} in
  session (request (RequestView.get C E self (start r)).1) !! "cart" = session r !! "cart" /\
  user (request (RequestView.get C E self (start r)).1) = user r /\
  GET (request (RequestView.get C E self (start r)).1) = GET r /\
  calls (RequestView.get C E self (start r)).1 = [].
Proof.
  intros C E self r. apply (request_view_frame C E self r "cart"); discriminate.
Defined.

Lemma request_view_dispatch (C : Collaborators) (E : Externals)
    (self : string * string) (r : Request) :
  dispatch (RequestView.view C E self) (start r) =
    if bool_decide (lower (method r) = "get")
    then RequestView.get C E self (start r)
    else (start r, Return (HttpResponseNotAllowed ["GET"])).
Proof.
  unfold dispatch. unfold_monad. cbn [request start].
  cbn [http_method_names RequestView.view].
  destruct (bool_decide (lower (method r) = "get")) eqn:Hm.
  - apply bool_decide_eq_true_1 in Hm. rewrite Hm.
    rewrite bool_decide_eq_true_2 by apply list_elem_of_here. reflexivity.
  - apply bool_decide_eq_false_1 in Hm.
    rewrite bool_decide_eq_false_2; [reflexivity|].
    intros Hin. apply list_elem_of_singleton in Hin. contradiction.
Qed.

Lemma request_view_as_view_run (C : Collaborators) (E : Externals) (r : Request) :
  RequestView.as_view C E (start r) =
    match RequestView.resolve C "OIDC_OP_AUTHORIZATION_ENDPOINT"
            (OIDC_OP_AUTHORIZATION_ENDPOINT (view_settings C))
            (published_OP_AUTHORIZATION_ENDPOINT (get_from_op_metadata C)) None with
    | Raise e => (start r, Raise e)
    | Return endpoint =>
        match RequestView.resolve C "OIDC_RP_CLIENT_ID"
                (OIDC_RP_CLIENT_ID (view_settings C))
                (published_RP_CLIENT_ID (get_from_op_metadata C)) None with
        | Raise e => (start r, Raise e)
        | Return client_id => dispatch (RequestView.view C E (endpoint, client_id)) (start r)
        end
    end.
Proof.
  unfold RequestView.as_view, RequestView.init, RequestView.get_settings.
  unfold mbind, M_bind, mret, M_ret, lift_outcome.
  destruct (RequestView.resolve C "OIDC_OP_AUTHORIZATION_ENDPOINT" _ _ _)
    as [endpoint|e1]; [|reflexivity].
  destruct (RequestView.resolve C "OIDC_RP_CLIENT_ID" _ _ _)
    as [client_id|e1]; reflexivity.
Qed.

Lemma authorization_params_nonce (scope client_id uri state n : string)
    (extra : list (string * string)) :
  dict_get (authorization_params scope client_id uri state extra (Some n)) "nonce" = Some n.
Proof.
  unfold authorization_params. rewrite dict_get_update. reflexivity.
Qed.

Lemma authorization_params_state (scope client_id uri state : string)
    (extra : list (string * string)) (nonce : option string) :
  dict_get (authorization_params scope client_id uri state extra nonce) "state" =
    Some (default state (dict_get (rev extra) "state")).
Proof.
  unfold authorization_params.
  destruct nonce as [n|]; [rewrite dict_get_update; cbn [rev app dict_get String.eqb Ascii.eqb Bool.eqb]|];
    rewrite dict_get_update; destruct (dict_get (rev extra) "state"); reflexivity.
Qed.

(** X13: when the request view returns, the state it stored under
    'oidc_state' is the state it drew, and it is the 'state' parameter of
    the authorization request unless OIDC_AUTH_REQUEST_EXTRA_PARAMS has an
    item 'state', whose value is sent instead while the drawn one is
    stored. In nonce mode (OIDC_USE_NONCE resolves to True) the view draws
    a nonce of the size OIDC_NONCE_SIZE, stores it under 'oidc_nonce' and
    sends it as the 'nonce' parameter, whatever the extra parameters say;
    out of nonce mode (OIDC_USE_NONCE resolves to False) it leaves the
    'oidc_nonce' of the session as it was and sends no 'nonce' of its own:
    the parameter is the one of the extra parameters, if any. *)
Theorem request_view_sends_what_it_stores
    (C : Collaborators) (E : Externals) (self : string * string) (r : Request)
    (w : World) (response : Response) :
  RequestView.get C E self (start r) = (w, Return response) ->
  exists size extra nonce scope uri,
    RequestView.resolve C "OIDC_STATE_SIZE" (OIDC_STATE_SIZE (view_settings C))
      (published_STATE_SIZE (get_from_op_metadata C)) (Some 32%Z) = Return size /\
    RequestView.resolve C "OIDC_AUTH_REQUEST_EXTRA_PARAMS"
      (OIDC_AUTH_REQUEST_EXTRA_PARAMS (view_settings C))
      (published_AUTH_REQUEST_EXTRA_PARAMS (get_from_op_metadata C)) (Some []) = Return extra /\
    ((RequestView.resolve C "OIDC_USE_NONCE" (OIDC_USE_NONCE (view_settings C))
        (published_USE_NONCE (get_from_op_metadata C)) (Some true) = Return false /\
      nonce = None) \/
     (exists nonce_size,
        RequestView.resolve C "OIDC_USE_NONCE" (OIDC_USE_NONCE (view_settings C))
          (published_USE_NONCE (get_from_op_metadata C)) (Some true) = Return true /\
        RequestView.resolve C "OIDC_NONCE_SIZE" (OIDC_NONCE_SIZE (view_settings C))
          (published_NONCE_SIZE (get_from_op_metadata C)) (Some 32%Z) = Return nonce_size /\
        nonce = Some (get_random_string C 1 nonce_size))) /\
    let state := get_random_string C 0 size in
    let params := authorization_params scope self.2 uri state extra nonce in
    response =
      HttpResponseRedirect
        (PStr (String.append self.1 (String.append "?" (urlencode C params)))) /\
    session (request w) !! "oidc_state" = Some (PStr state) /\
    dict_get params "state" = Some (default state (dict_get (rev extra) "state")) /\
    match nonce with
    | Some n =>
        session (request w) !! "oidc_nonce" = Some (PStr n) /\
        dict_get params "nonce" = Some n
    | None =>
        session (request w) !! "oidc_nonce" = session r !! "oidc_nonce" /\
        dict_get params "nonce" = dict_get (rev extra) "nonce"
    end.
Proof.
  intros Hrun.
  destruct (request_view_get_inv C E self r) as [[e H]|H]; [congruence|].
  destruct H as (size & field & name & scope & path & extra & nonce & H).
  destruct H as (H1 & _ & _ & _ & _ & H6 & H7 & [[_ Heq]|[e [_ Heq]]]);
    [|congruence].
  rewrite Heq in Hrun. injection Hrun as <- <-.
  exists size, extra, nonce, scope, (absolutify C r path).
  split; [exact H1|]. split; [exact H6|].
  split; [destruct H7 as [[-> H7]|H7]; [left; split; [exact H7 | reflexivity] | right; exact H7]|].
  cbn [request session with_session].
  split; [reflexivity|]. split; [apply issued_session_state|].
  split; [apply authorization_params_state|].
  rewrite issued_session_nonce. destruct nonce as [n|].
  - split; [reflexivity | apply authorization_params_nonce].
  - split; [reflexivity|]. unfold authorization_params. rewrite dict_get_update.
    destruct (dict_get (rev extra) "nonce"); reflexivity.
Qed.

Lemma request_view_sends_what_it_stores_witness :
  let C := DemoRequest.collaborators in
  let E := Demo.strict in
  let self := ("https://op.example/authorize", "rp-client") in
  let r := DemoRequest.visit [("next", "/dashboard")] ∅ in
  let w := (RequestView.get C E self (start r)).1 in
  let response :=
    HttpResponseRedirect
      (PStr "https://op.example/authorize?response_type=code&scope=openid email&client_id=rp-client&redirect_uri=https://rp.example/oidc/callback/&state=aaaaaaaaaaaaaaaaaaaaaaaaaaaaaaaa&nonce=bbbbbbbbbbbbbbbbbbbbbbbbbbbbbbbb") in
  exists size extra nonce scope uri,
    RequestView.resolve C "OIDC_STATE_SIZE" (OIDC_STATE_SIZE (view_settings C))
      (published_STATE_SIZE (get_from_op_metadata C)) (Some 32%Z) = Return size /\
    RequestView.resolve C "OIDC_AUTH_REQUEST_EXTRA_PARAMS"
      (OIDC_AUTH_REQUEST_EXTRA_PARAMS (view_settings C))
      (published_AUTH_REQUEST_EXTRA_PARAMS (get_from_op_metadata C)) (Some []) = Return extra /\
    ((RequestView.resolve C "OIDC_USE_NONCE" (OIDC_USE_NONCE (view_settings C))
        (published_USE_NONCE (get_from_op_metadata C)) (Some true) = Return false /\
      nonce = None) \/
     (exists nonce_size,
        RequestView.resolve C "OIDC_USE_NONCE" (OIDC_USE_NONCE (view_settings C))
          (published_USE_NONCE (get_from_op_metadata C)) (Some true) = Return true /\
        RequestView.resolve C "OIDC_NONCE_SIZE" (OIDC_NONCE_SIZE (view_settings C))
          (published_NONCE_SIZE (get_from_op_metadata C)) (Some 32%Z) = Return nonce_size /\
        nonce = Some (get_random_string C 1 nonce_size))) /\
    let state := get_random_string C 0 size in
    let params := authorization_params scope self.2 uri state extra nonce in
    response =
      HttpResponseRedirect
        (PStr (String.append self.1 (String.append "?" (urlencode C params)))) /\
    session (request w) !! "oidc_state" = Some (PStr state) /\
    dict_get params "state" = Some (default state (dict_get (rev extra) "state")) /\
    match nonce with
    | Some n =>
        session (request w) !! "oidc_nonce" = Some (PStr n) /\
        dict_get params "nonce" = Some n
    | None =>
        session (request w) !! "oidc_nonce" = session r !! "oidc_nonce" /\
        dict_get params "nonce" = dict_get (rev extra) "nonce"
    end.
Proof.
  intros C E self r w response.
  apply (request_view_sends_what_it_stores C E self r w response).
  reflexivity.
Defined.

(** X14: the round trip of the state. After the request view returned, a
    callback on the same session that carries 'code' and 'state' and no
    non-empty 'error' passes the state checks exactly when its 'state' is
    the state the view drew: it then calls the backend, with the nonce the
    view left in the session; with any other 'state' it raises
    SuspiciousOperation and calls nothing. *)
Theorem request_then_callback
    (C : Collaborators) (E : Externals) (self : string * string) (r : Request)
    (w : World) (response : Response) (q : QueryDict) :
  RequestView.get C E self (start r) = (w, Return response) ->
  truthy (QueryDict_get q "error") = false ->
  QueryDict_contains q "code" = true ->
  QueryDict_contains q "state" = true ->
  exists size,
    RequestView.resolve C "OIDC_STATE_SIZE" (OIDC_STATE_SIZE (view_settings C))
      (published_STATE_SIZE (get_from_op_metadata C)) (Some 32%Z) = Return size /\
    let state := get_random_string C 0 size in
    let r2 := follow_up q w in
    (QueryDict_get q "state" = PStr state ->
     get E (start r2) =
       backend_path E (after_nonce r2)
         (default PNone (session (request w) !! "oidc_nonce"))) /\
    (QueryDict_get q "state" <> PStr state ->
     get E (start r2) =
       (start (after_nonce r2), Raise (SuspiciousOperation state_mismatch_msg))).
Proof.
  intros Hrun He Hc Hs.
  destruct (request_view_get_inv C E self r) as [[e H]|H]; [congruence|].
  destruct H as (size & field & name & scope & path & extra & nonce & H).
  destruct H as (H1 & _ & _ & _ & _ & _ & _ & [[_ Heq]|[e [_ Heq]]]);
    [|congruence].
  rewrite Heq in Hrun. injection Hrun as <- <-.
  exists size. split; [exact H1|]. cbn zeta.
  destruct (QueryDict_contains_get _ _ Hs) as [s Hget].
  set (w := mkWorld _ _).
  assert (Hst : session (follow_up q w) !! "oidc_state" =
                Some (PStr (get_random_string C 0 size)))
    by apply issued_session_state.
  split.
  - intros Hq. rewrite Hget in Hq. injection Hq as ->.
    rewrite (get_code_path E (follow_up q w) _ He Hc Hget), Hst.
    rewrite bool_decide_eq_true_2 by reflexivity. reflexivity.
  - intros Hq. rewrite (get_code_path E (follow_up q w) s He Hc Hget), Hst.
    rewrite bool_decide_eq_false_2; [reflexivity|]. congruence.
Qed.

Lemma request_then_callback_witness :
  let C := DemoRequest.collaborators in
  let E := Demo.lenient in
  let self := ("https://op.example/authorize", "rp-client") in
  let r := DemoRequest.visit [("next", "/dashboard")] ∅ in
  let w := (RequestView.get C E self (start r)).1 in
  let q := [("code", "good"); ("state", "aaaaaaaaaaaaaaaaaaaaaaaaaaaaaaaa")] in
  exists size,
    RequestView.resolve C "OIDC_STATE_SIZE" (OIDC_STATE_SIZE (view_settings C))
      (published_STATE_SIZE (get_from_op_metadata C)) (Some 32%Z) = Return size /\
    let state := get_random_string C 0 size in
    let r2 := follow_up q w in
    (QueryDict_get q "state" = PStr state ->
     get E (start r2) =
       backend_path E (after_nonce r2)
         (default PNone (session (request w) !! "oidc_nonce"))) /\
    (QueryDict_get q "state" <> PStr state ->
     get E (start r2) =
       (start (after_nonce r2), Raise (SuspiciousOperation state_mismatch_msg))).
Proof.
  intros C E self r w q.
  apply (request_then_callback C E self r w
           (HttpResponseRedirect
              (PStr "https://op.example/authorize?response_type=code&scope=openid email&client_id=rp-client&redirect_uri=https://rp.example/oidc/callback/&state=aaaaaaaaaaaaaaaaaaaaaaaaaaaaaaaa&nonce=bbbbbbbbbbbbbbbbbbbbbbbbbbbbbbbb"))
           q).
  - reflexivity.
  - reflexivity.
  - reflexivity.
  - reflexivity.
Defined.

(** X15: the round trip of the next url. After the request view returned,
    a callback on the same session that logs a user in redirects to the url
    that [get_next_url] accepted on the initiating request, and to
    LOGIN_REDIRECT_URL ("/" by default) when it accepted none, provided the
    backend and auth.login leave 'oidc_login_next' in the session. The url
    is validated once, by the request view. *)
Theorem request_then_login_redirects_to_next
    (C : Collaborators) (E : Externals) (self : string * string) (r : Request)
    (w : World) (response : Response) (q : QueryDict) (field : string)
    (r3 : Request) (u : User) :
  RequestView.get C E self (start r) = (w, Return response) ->
  RequestView.resolve C "OIDC_REDIRECT_FIELD_NAME"
    (OIDC_REDIRECT_FIELD_NAME (view_settings C))
    (published_REDIRECT_FIELD_NAME (get_from_op_metadata C)) (Some "next") = Return field ->
  externals_keep E "oidc_login_next" ->
  CallLogin r3 u ∈ calls (get E (start (follow_up q w))).1 ->
  (get E (start (follow_up q w))).2 =
    Return (HttpResponseRedirect
              (py_or (safe_next_url E r field)
                     (PStr (import_from_settings (LOGIN_REDIRECT_URL (settings E)) "/")))).
Proof.
  intros Hrun Hfield [Kb Kl] Hin.
  destruct (request_view_get_inv C E self r) as [[e H]|H]; [congruence|].
  destruct H as (size & field' & name & scope & path & extra & nonce & H).
  destruct H as (_ & H2 & _ & _ & _ & _ & _ & [[_ Heq]|[e [_ Heq]]]);
    [|congruence].
  rewrite Hfield in H2. injection H2 as <-.
  rewrite Heq in Hrun. injection Hrun as <- <-.
  set (w := mkWorld _ _) in *.
  destruct (login_call_inv E (follow_up q w) r3 u Hin)
    as (Hact & Hb & _ & _ & _ & _ & Hget).
  rewrite Hget. unfold backend_path. rewrite Hb, Hact. cbn [snd].
  unfold success_url_of, logged_in. cbn [session with_session].
  rewrite lookup_insert_ne by discriminate. rewrite Kl.
  pose proof (Kb (after_nonce (follow_up q w)) (nonce_of (follow_up q w))) as Hk.
  rewrite Hb in Hk. cbn [fst] in Hk. rewrite Hk.
  rewrite after_nonce_other by discriminate.
  unfold follow_up, w. cbn [session request with_session].
  rewrite issued_session_next. reflexivity.
Qed.

Lemma request_then_login_redirects_to_next_witness :
  let C := DemoRequest.collaborators in
  let E := Demo.lenient in
  let self := ("https://op.example/authorize", "rp-client") in
  let r := DemoRequest.visit [("next", "/dashboard")] ∅ in
  let w := (RequestView.get C E self (start r)).1 in
  let q := [("code", "good"); ("state", "aaaaaaaaaaaaaaaaaaaaaaaaaaaaaaaa")] in
  py_or (safe_next_url E r "next")
        (PStr (import_from_settings (LOGIN_REDIRECT_URL (settings E)) "/")) =
    PStr "/dashboard" /\
  (get E (start (follow_up q w))).2 =
    Return (HttpResponseRedirect
              (py_or (safe_next_url E r "next")
                     (PStr (import_from_settings (LOGIN_REDIRECT_URL (settings E)) "/")))).
Proof.
  intros C E self r w q. split; [reflexivity|].
  apply (request_then_login_redirects_to_next C E self r w
           (HttpResponseRedirect
              (PStr "https://op.example/authorize?response_type=code&scope=openid email&client_id=rp-client&redirect_uri=https://rp.example/oidc/callback/&state=aaaaaaaaaaaaaaaaaaaaaaaaaaaaaaaa&nonce=bbbbbbbbbbbbbbbbbbbbbbbbbbbbbbbb"))
           q "next" (after_nonce (follow_up q w)) Demo.alice).
  - reflexivity.
  - reflexivity.
  - apply demo_keeps. intros r0 n. reflexivity.
  - vm_compute. apply list_elem_of_further, list_elem_of_here.
Defined.

Lemma resolve_static (C : Collaborators) (A : Type) (attr : string)
    (configured : option A) (published : outcome A) (args : option A) :
  import_from_settings (OIDC_REQ_METADATA (view_settings C)) false = false ->
  RequestView.resolve C attr configured published args = import_setting configured args.
Proof.
  intros Hflag. unfold RequestView.resolve. rewrite Hflag, andb_false_r. reflexivity.
Qed.

(** X16: unless OIDC_REQ_METADATA is set, the metadata of the OP plays no
    part: the request view behaves the same whatever
    [is_obtainable_from_op_metadata] answers and whatever
    [get_from_op_metadata] would return or raise. *)
Theorem request_view_ignores_metadata_by_default
    (C : Collaborators) (E : Externals) (obtainable : string -> bool)
    (published : OpMetadata) (w : World) :
  import_from_settings (OIDC_REQ_METADATA (view_settings C)) false = false ->
  RequestView.as_view
    (mkCollaborators (view_settings C) obtainable published (get_random_string C)
                     (reverse C) (absolutify C) (urlencode C)) E w =
  RequestView.as_view C E w.
Proof.
  intros Hflag.
  unfold RequestView.as_view, RequestView.init, RequestView.view, RequestView.get,
    RequestView.get_extra_params, RequestView.get_settings.
  rewrite !(resolve_static C) by exact Hflag.
  rewrite !(resolve_static (mkCollaborators _ _ _ _ _ _ _)) by exact Hflag.
  reflexivity.
Qed.

Lemma request_view_ignores_metadata_by_default_witness :
  let C := DemoRequest.collaborators in
  let w := start (DemoRequest.visit [("next", "/dashboard")] ∅) in
  RequestView.as_view
    (mkCollaborators (view_settings C) (fun _ => true) DemoRequest.unpublished
                     (get_random_string C) (reverse C) (absolutify C) (urlencode C))
    Demo.strict w =
  RequestView.as_view C Demo.strict w.
Proof.
  intros C w.
  apply (request_view_ignores_metadata_by_default C Demo.strict (fun _ => true)
           DemoRequest.unpublished w).
  reflexivity.
Defined.

(** X17: when OIDC_REQ_METADATA is set and the authorization endpoint can
    be obtained from the metadata of the OP, the metadata wins over the
    static configuration and there is no falling back on it: if the lookup
    raises, the view raises the same exception for every request, even
    with OIDC_OP_AUTHORIZATION_ENDPOINT configured, and if it returns a
    url, that url is the endpoint the instance keeps. *)
Theorem request_view_metadata_precedence
    (C : Collaborators) (E : Externals) (r : Request) :
  is_obtainable_from_op_metadata C "OIDC_OP_AUTHORIZATION_ENDPOINT" = true ->
  OIDC_REQ_METADATA (view_settings C) = Some true ->
  match published_OP_AUTHORIZATION_ENDPOINT (get_from_op_metadata C) with
  | Raise e => RequestView.as_view C E (start r) = (start r, Raise e)
  | Return url =>
      forall self w, RequestView.init C (start r) = (w, Return self) -> self.1 = url
  end.
Proof.
  intros Hob Hflag.
  assert (Hres : forall configured args,
            RequestView.resolve C "OIDC_OP_AUTHORIZATION_ENDPOINT" configured
              (published_OP_AUTHORIZATION_ENDPOINT (get_from_op_metadata C)) args =
            published_OP_AUTHORIZATION_ENDPOINT (get_from_op_metadata C)).
  { intros configured args. unfold RequestView.resolve.
    rewrite Hob, Hflag. reflexivity. }
  destruct (published_OP_AUTHORIZATION_ENDPOINT (get_from_op_metadata C))
    as [url|e] eqn:Hp.
  - intros self w. unfold RequestView.init, RequestView.get_settings.
    unfold mbind, M_bind, mret, M_ret, lift_outcome. rewrite Hp, Hres.
    destruct (RequestView.resolve C "OIDC_RP_CLIENT_ID" _ _ _) as [client_id|e1].
    + intros [= _ <-]. reflexivity.
    + discriminate.
  - rewrite request_view_as_view_run, Hp, Hres. reflexivity.
Qed.

Lemma request_view_metadata_precedence_witness :
  let C := mkCollaborators
             (mkRequestSettings (Some "https://op.example/authorize") (Some "rp-client")
                                (Some true) None None None None None None None)
             (fun _ => true) DemoRequest.unpublished DemoRequest.drawn
             DemoRequest.reverse_callback DemoRequest.absolute DemoRequest.joined in
  let r := DemoRequest.visit [("next", "/dashboard")] ∅ in
  match published_OP_AUTHORIZATION_ENDPOINT (get_from_op_metadata C) with
  | Raise e => RequestView.as_view C Demo.strict (start r) = (start r, Raise e)
  | Return url =>
      forall self w, RequestView.init C (start r) = (w, Return self) -> self.1 = url
  end.
Proof.
  intros C r. apply (request_view_metadata_precedence C Demo.strict r); reflexivity.
Defined.

(** X18: when the request view returns, it has overwritten
    'oidc_login_next': the session holds None there, or the url submitted
    in the redirect field of this request, and then [is_safe_url] accepted
    that url for the configured hosts followed by the host that
    [request.get_host()] returned. A next url stored by an earlier visit
    does not survive. *)
Theorem request_view_stores_validated_next
    (C : Collaborators) (E : Externals) (self : string * string) (r : Request)
    (w : World) (response : Response) :
  RequestView.get C E self (start r) = (w, Return response) ->
  exists field,
    RequestView.resolve C "OIDC_REDIRECT_FIELD_NAME"
      (OIDC_REDIRECT_FIELD_NAME (view_settings C))
      (published_REDIRECT_FIELD_NAME (get_from_op_metadata C)) (Some "next") = Return field /\
    (session (request w) !! "oidc_login_next" = Some PNone \/
     exists url host,
       QueryDict_get (GET r) field = PStr url /\ url <> "" /\
       get_host r = Return host /\
       is_safe_url E url
         (import_from_settings (OIDC_REDIRECT_ALLOWED_HOSTS (settings E)) [] ++ [host])
         (import_from_settings (OIDC_REDIRECT_REQUIRE_HTTPS (settings E)) (is_secure r))
         = true /\
       session (request w) !! "oidc_login_next" = Some (PStr url)).
Proof.
  intros Hrun.
  destruct (request_view_get_inv C E self r) as [[e H]|H]; [congruence|].
  destruct H as (size & field & name & scope & path & extra & nonce & H).
  destruct H as (_ & H2 & _ & _ & _ & _ & _ & [[_ Heq]|[e [_ Heq]]]);
    [|congruence].
  rewrite Heq in Hrun. injection Hrun as <- <-.
  exists field. split; [exact H2|].
  cbn [request session with_session]. rewrite issued_session_next.
  unfold safe_next_url.
  destruct (QueryDict_get (GET r) field) as [|url|n] eqn:Hq; [left; reflexivity| |left; reflexivity].
  destruct (String.eqb url "") eqn:Hne; [left; reflexivity|].
  destruct (get_host r) as [host|e] eqn:Hh; [|left; reflexivity].
  destruct (is_safe_url E url _ _) eqn:Hsafe; [|left; reflexivity].
  right. exists url, host. apply String.eqb_neq in Hne. auto 6.
Qed.

Lemma request_view_stores_validated_next_witness :
  let C := DemoRequest.collaborators in
  let E := Demo.strict in
  let self := ("https://op.example/authorize", "rp-client") in
  let r := DemoRequest.visit [("next", "//evil.example/x")]
             {["oidc_login_next" := PStr "/earlier"]} in
  let w := (RequestView.get C E self (start r)).1 in
  session (request w) !! "oidc_login_next" = Some PNone /\
  exists field,
    RequestView.resolve C "OIDC_REDIRECT_FIELD_NAME"
      (OIDC_REDIRECT_FIELD_NAME (view_settings C))
      (published_REDIRECT_FIELD_NAME (get_from_op_metadata C)) (Some "next") = Return field /\
    (session (request w) !! "oidc_login_next" = Some PNone \/
     exists url host,
       QueryDict_get (GET r) field = PStr url /\ url <> "" /\
       get_host r = Return host /\
       is_safe_url E url
         (import_from_settings (OIDC_REDIRECT_ALLOWED_HOSTS (settings E)) [] ++ [host])
         (import_from_settings (OIDC_REDIRECT_REQUIRE_HTTPS (settings E)) (is_secure r))
         = true /\
       session (request w) !! "oidc_login_next" = Some (PStr url)).
Proof.
  intros C E self r w. split; [reflexivity|].
  apply (request_view_stores_validated_next C E self r w
           (HttpResponseRedirect
              (PStr "https://op.example/authorize?response_type=code&scope=openid email&client_id=rp-client&redirect_uri=https://rp.example/oidc/callback/&state=aaaaaaaaaaaaaaaaaaaaaaaaaaaaaaaa&nonce=bbbbbbbbbbbbbbbbbbbbbbbbbbbbbbbb"))).
  reflexivity.
Defined.
